(** * Beacon-chain RPC block queries, chain-head retrieval and streams

    A shallow embedding of [beacon-chain/rpc/beacon/blocks.go]
    ([ListBlocks], [GetChainHead], [StreamBlocks], [StreamChainHead],
    [chainHeadRetrieval]) and of the head-manager operations of the
    blockchain service that its test file exercises. *)

From Stdlib Require Import ZArith List Lia Bool.
From Stdlib Require Import Strings.Byte Sorting.Sorted.
From stdpp Require Import base option list strings pretty countable gmap.

Local Open Scope Z_scope.

(** ** Bytes and roots *)

(** A Go [[]byte]; a [[32]byte] root is a byte list too. *)
Definition Bytes : Type := list byte.
Definition Bytes32 : Type := list byte.

#[global] Instance byte_eq_dec : EqDecision byte := Byte.byte_eq_dec.

#[global] Program Instance byte_countable : Countable byte :=
  inj_countable' Byte.to_N (fun n => default x00 (Byte.of_N n)) _.
Next Obligation. intros b. destruct b; reflexivity. Qed.

(** ** gRPC status codes and Go results *)

Module codes.
Inductive Code : Set :=
| InvalidArgument | Internal | FailedPrecondition
| Unavailable | Aborted | Canceled.

#[global] Instance Code_eq_dec : EqDecision Code.
Proof. solve_decision. Defined.

Definition String (c : Code) : string :=
  match c with
  | InvalidArgument => "InvalidArgument"
  | Internal => "Internal"
  | FailedPrecondition => "FailedPrecondition"
  | Unavailable => "Unavailable"
  | Aborted => "Aborted"
  | Canceled => "Canceled"
  end.
End codes.

Module status.
(** A Go [error]: either a gRPC status built by [status.Error]/[Errorf],
    or a plain error handed through unwrapped. *)
Inductive error : Type :=
| Status (c : codes.Code) (msg : string)
| Plain (msg : string).

Definition Code (e : error) : option codes.Code :=
  match e with
  | Status c _ => Some c
  | Plain _ => None
  end.

(** The text of an error, as [%v] prints it. *)
Definition Error (e : error) : string :=
  match e with
  | Status c msg =>
      "rpc error: code = " +:+ codes.String c +:+ " desc = " +:+ msg
  | Plain msg => msg
  end.
End status.

(** What a handler call does: a response, an error, or a run-time panic
    (nil dereference, slice bounds out of range). *)
Inductive outcome (A : Type) : Type :=
| Ok (a : A)
| Err (e : status.error)
| Panic.
Arguments Ok {A} a.
Arguments Err {A} e.
Arguments Panic {A}.

(** ** Protobuf messages ([ethpb]) *)

Module ethpb.
Record BeaconBlock : Type := mkBeaconBlock {
  Slot : Z;                 (* uint64 *)
  ParentRoot : Bytes;
  StateRoot : Bytes;
  Body : Bytes              (* opaque to this layer *)
}.

(** [Block] is a pointer and may be nil. *)
Record SignedBeaconBlock : Type := mkSignedBeaconBlock {
  Block : option BeaconBlock;
  Signature : Bytes
}.

Record Checkpoint : Type := mkCheckpoint {
  Epoch : Z;                (* uint64 *)
  Root : Bytes
}.

Record BeaconBlockContainer : Type := mkBeaconBlockContainer {
  Container_Block : SignedBeaconBlock;
  BlockRoot : Bytes
}.

Record ListBlocksResponse : Type := mkListBlocksResponse {
  BlockContainers : list BeaconBlockContainer;
  TotalSize : Z;            (* int32 *)
  NextPageToken : string
}.

(** The [QueryFilter] oneof of a [ListBlocksRequest]; [Filter_nil] is
    the unset interface value. *)
Inductive isListBlocksRequest_QueryFilter : Type :=
| ListBlocksRequest_Root (Root : Bytes)
| ListBlocksRequest_Slot (Slot : Z)
| ListBlocksRequest_Epoch (Epoch : Z)
| ListBlocksRequest_Genesis (Genesis : bool)
| Filter_nil.

Record ListBlocksRequest : Type := mkListBlocksRequest {
  QueryFilter : isListBlocksRequest_QueryFilter;
  PageSize : Z;             (* int32 *)
  PageToken : string
}.

Record ChainHead : Type := mkChainHead {
  HeadSlot : Z;
  HeadEpoch : Z;
  HeadBlockRoot : Bytes;
  FinalizedSlot : Z;
  FinalizedEpoch : Z;
  FinalizedBlockRoot : Bytes;
  JustifiedSlot : Z;
  JustifiedEpoch : Z;
  JustifiedBlockRoot : Bytes;
  PreviousJustifiedSlot : Z;
  PreviousJustifiedEpoch : Z;
  PreviousJustifiedBlockRoot : Bytes
}.
End ethpb.

(** ** Database filters and the database capability *)

Module filters.
(** [filters.NewFilter()] with its chained setters: each bound is
    either unset or set. *)
Record QueryFilter : Type := mkQueryFilter {
  StartSlot : option Z;
  EndSlot : option Z;
  StartEpoch : option Z;
  EndEpoch : option Z
}.

Definition NewFilter : QueryFilter := mkQueryFilter None None None None.
Definition SetStartSlot (v : Z) (q : QueryFilter) : QueryFilter :=
  mkQueryFilter (Some v) (EndSlot q) (StartEpoch q) (EndEpoch q).
Definition SetEndSlot (v : Z) (q : QueryFilter) : QueryFilter :=
  mkQueryFilter (StartSlot q) (Some v) (StartEpoch q) (EndEpoch q).
Definition SetStartEpoch (v : Z) (q : QueryFilter) : QueryFilter :=
  mkQueryFilter (StartSlot q) (EndSlot q) (Some v) (EndEpoch q).
Definition SetEndEpoch (v : Z) (q : QueryFilter) : QueryFilter :=
  mkQueryFilter (StartSlot q) (EndSlot q) (StartEpoch q) (Some v).
End filters.

Module db.
(** The read side of the database the RPC server consumes.  Every
    method returns Go's pair of a value and an error ([None] is nil). *)
Record Database : Type := mkDatabase {
  Block : Bytes32 -> option ethpb.SignedBeaconBlock * option string;
  Blocks : filters.QueryFilter -> list ethpb.SignedBeaconBlock * option string;
  GenesisBlock : option ethpb.SignedBeaconBlock * option string
}.
End db.

(** ** Event feeds *)

Module blockfeed.
Record ReceivedBlockData : Type := mkReceivedBlockData {
  SignedBlock : option ethpb.SignedBeaconBlock
}.
End blockfeed.

Module feed.
(** The dynamic value in an event's [Data interface{}]: a
    [blockfeed.ReceivedBlockData] value, or anything else (a value of
    another type, a pointer, nil). *)
Inductive any : Type :=
| is_ReceivedBlockData (data : blockfeed.ReceivedBlockData)
| is_other.

(** [Typ] is the event's [Type] field, an [int]-based [EventType]. *)
Record Event : Type := mkEvent {
  Typ : Z;
  Data : any
}.
End feed.

(** ** Server-side streams and the select of a stream loop *)

(** A gRPC server stream: the messages handed to [Send] so far, and how
    the transport answers the next [Send] given those. *)
Record ServerStream (M : Type) : Type := mkServerStream {
  sent : list M;
  transport : list M -> M -> option string
}.
Arguments mkServerStream {M} sent transport.
Arguments sent {M} s.
Arguments transport {M} s.

Definition Send {M : Type} (stream : ServerStream M) (m : M)
    : ServerStream M * option string :=
  (mkServerStream (sent stream ++ [m]) (transport stream),
   transport stream (sent stream) m).

(** The case a [select] of a stream loop takes in one iteration. *)
Inductive selected : Type :=
| case_event (event : feed.Event)   (* event := <-channel *)
| case_subErr                       (* <-sub.Err() *)
| case_bsCtxDone                    (* <-bs.Ctx.Done() *)
| case_streamCtxDone.               (* <-stream.Context().Done() *)

(** One iteration of a stream loop: go round again, return an error, or
    panic. *)
Inductive iteration (M : Type) : Type :=
| Continue (stream : ServerStream M)
| Return (stream : ServerStream M) (err : status.error)
| Crash (stream : ServerStream M).
Arguments Continue {M} stream.
Arguments Return {M} stream err.
Arguments Crash {M} stream.

(** How a stream handler stands after the cases seen so far: still
    waiting in its select, returned with an error, or panicked. *)
Inductive exit : Type :=
| Waiting
| Returned (err : status.error)
| Panicked.

(** ** The RPC server *)

Module beacon.
Import codes status ethpb.

(** [HeadBlock()] returns the cached head block, nil while it is unset. *)
Record HeadFetcher : Type := mkHeadFetcher {
  HeadBlock : option SignedBeaconBlock
}.

(** The three checkpoint getters; each returns a checkpoint, never nil. *)
Record FinalizationFetcher : Type := mkFinalizationFetcher {
  FinalizedCheckpt : Checkpoint;
  CurrentJustifiedCheckpt : Checkpoint;
  PreviousJustifiedCheckpt : Checkpoint
}.

(** What one call on the server observes of its collaborators. *)
Record Server : Type := mkServer {
  BeaconDB : db.Database;
  headFetcher : HeadFetcher;
  finalizationFetcher : FinalizationFetcher
}.

(** [int32(n)] of a Go [int]: two's-complement truncation. *)
Definition int32 (n : Z) : Z := (n + 2 ^ 31) mod 2 ^ 32 - 2 ^ 31.

(** [s[lo:hi]] of a slice without spare capacity; [None] is the bounds
    panic. *)
Definition slice {A : Type} (s : list A) (lo hi : Z) : option (list A) :=
  if (0 <=? lo) && (lo <=? hi) && (hi <=? Z.of_nat (length s))
  then Some (firstn (Z.to_nat (hi - lo)) (skipn (Z.to_nat lo) s))
  else None.

Section Handlers.
(** Helpers of other packages, taken as given:
    [ssz.HashTreeRoot] on a block pointer, [bytesutil.ToBytes32],
    [helpers.SlotToEpoch], [pagination.StartAndEndPage] and the
    configured [flags.Get().MaxPageSize]. *)
Variable HashTreeRoot : option BeaconBlock -> Bytes32 * option string.
Variable ToBytes32 : Bytes -> Bytes32.
Variable SlotToEpoch : Z -> Z.
Variable StartAndEndPage :
  string -> Z -> Z -> Z * Z * string * option string.
Variable MaxPageSize : Z.

(** The test [err != nil || b == nil || b.Block == nil] that follows
    each checkpoint lookup; [Some blk] when all three pass. *)
Definition checkpointBlock
    (r : option SignedBeaconBlock * option string) : option BeaconBlock :=
  match r with
  | (_, Some _) => None
  | (None, None) => None
  | (Some b, None) => Block b
  end.

Definition chainHeadRetrieval (bs : Server) : outcome ChainHead :=
  match HeadBlock (headFetcher bs) with
  | None => Err (Status Internal "Head block of chain was nil")
  | Some headBlock =>
    match HashTreeRoot (Block headBlock) with
    | (_, Some err) =>
        Err (Status Internal ("Could not get head block root: " +:+ err))
    | (headBlockRoot, None) =>
      let finalizedCheckpoint := FinalizedCheckpt (finalizationFetcher bs) in
      match checkpointBlock
              (db.Block (BeaconDB bs) (ToBytes32 (Root finalizedCheckpoint))) with
      | None => Err (Status Internal "Could not get finalized block")
      | Some fb =>
        let finalizedSlot := Slot fb in
        let justifiedCheckpoint :=
          CurrentJustifiedCheckpt (finalizationFetcher bs) in
        match checkpointBlock
                (db.Block (BeaconDB bs) (ToBytes32 (Root justifiedCheckpoint))) with
        | None => Err (Status Internal "Could not get justified block")
        | Some jb =>
          let justifiedSlot := Slot jb in
          let prevJustifiedCheckpoint :=
            PreviousJustifiedCheckpt (finalizationFetcher bs) in
          match checkpointBlock
                  (db.Block (BeaconDB bs)
                     (ToBytes32 (Root prevJustifiedCheckpoint))) with
          | None => Err (Status Internal "Could not get prev justified block")
          | Some pb =>
            let prevJustifiedSlot := Slot pb in
            match Block headBlock with
            | None => Panic
            | Some hb =>
              Ok {| HeadSlot := Slot hb;
                    HeadEpoch := SlotToEpoch (Slot hb);
                    HeadBlockRoot := headBlockRoot;
                    FinalizedSlot := finalizedSlot;
                    FinalizedEpoch := Epoch finalizedCheckpoint;
                    FinalizedBlockRoot := Root finalizedCheckpoint;
                    JustifiedSlot := justifiedSlot;
                    JustifiedEpoch := Epoch justifiedCheckpoint;
                    JustifiedBlockRoot := Root justifiedCheckpoint;
                    PreviousJustifiedSlot := prevJustifiedSlot;
                    PreviousJustifiedEpoch := Epoch prevJustifiedCheckpoint;
                    PreviousJustifiedBlockRoot := Root prevJustifiedCheckpoint |}
            end
          end
        end
      end
    end
  end.

Definition GetChainHead (bs : Server) : outcome ChainHead :=
  chainHeadRetrieval bs.

(** The loop that wraps each returned block with its root; the first
    failing [ssz.HashTreeRoot] ends the call with that error. *)
Fixpoint containersOf (returnedBlks : list SignedBeaconBlock)
    : list BeaconBlockContainer * option string :=
  match returnedBlks with
  | [] => ([], None)
  | b :: rest =>
    match HashTreeRoot (Block b) with
    | (_, Some err) => ([], Some err)
    | (root, None) =>
      match containersOf rest with
      | (_, Some err) => ([], Some err)
      | (containers, None) =>
          (mkBeaconBlockContainer b root :: containers, None)
      end
    end
  end.

(** What the epoch and the slot case both do with the blocks the
    database returned. *)
Definition pageOfBlocks (req : ListBlocksRequest)
    (blks : list SignedBeaconBlock) : outcome ListBlocksResponse :=
  let numBlks := Z.of_nat (length blks) in
  if numBlks =? 0 then
    Ok {| BlockContainers := []; TotalSize := 0; NextPageToken := "0" |}
  else
    match StartAndEndPage (PageToken req) (PageSize req) numBlks with
    | (_, _, _, Some err) =>
        Err (Status Internal ("Could not paginate blocks: " +:+ err))
    | (start, end_, nextPageToken, None) =>
      match slice blks start end_ with
      | None => Panic
      | Some returnedBlks =>
        match containersOf returnedBlks with
        | (_, Some err) => Err (Plain err)
        | (containers, None) =>
            Ok {| BlockContainers := containers;
                  TotalSize := int32 numBlks;
                  NextPageToken := nextPageToken |}
        end
      end
    end.

Definition ListBlocks (bs : Server) (req : ListBlocksRequest)
    : outcome ListBlocksResponse :=
  if PageSize req >? MaxPageSize then
    Err (Status InvalidArgument
           ("Requested page size " +:+ pretty (PageSize req) +:+
            " can not be greater than max size " +:+ pretty MaxPageSize))
  else
    match QueryFilter req with
    | ListBlocksRequest_Epoch epoch =>
      match db.Blocks (BeaconDB bs)
              (filters.SetEndEpoch epoch
                 (filters.SetStartEpoch epoch filters.NewFilter)) with
      | (_, Some err) =>
          Err (Status Internal ("Failed to get blocks: " +:+ err))
      | (blks, None) => pageOfBlocks req blks
      end
    | ListBlocksRequest_Root root =>
      match db.Block (BeaconDB bs) (ToBytes32 root) with
      | (_, Some err) =>
          Err (Status Internal ("Could not retrieve block: " +:+ err))
      | (None, None) =>
          Ok {| BlockContainers := []; TotalSize := 0;
                NextPageToken := "0" |}
      | (Some blk, None) =>
        match HashTreeRoot (Block blk) with
        | (_, Some err) => Err (Plain err)
        | (blkRoot, None) =>
            Ok {| BlockContainers := [mkBeaconBlockContainer blk blkRoot];
                  TotalSize := 1;
                  NextPageToken := EmptyString |}
        end
      end
    | ListBlocksRequest_Slot slot =>
      match db.Blocks (BeaconDB bs)
              (filters.SetEndSlot slot
                 (filters.SetStartSlot slot filters.NewFilter)) with
      | (_, Some err) =>
          Err (Status Internal
                 ("Could not retrieve blocks for slot " +:+ pretty slot
                  +:+ ": " +:+ err))
      | (blks, None) => pageOfBlocks req blks
      end
    | ListBlocksRequest_Genesis _ =>
      match db.GenesisBlock (BeaconDB bs) with
      | (_, Some err) =>
          Err (Status Internal
                 ("Could not retrieve blocks for genesis slot: " +:+ err))
      | (None, None) =>
          Err (Status Internal "Could not find genesis block")
      | (Some genBlk, None) =>
        match HashTreeRoot (Block genBlk) with
        | (_, Some err) => Err (Plain err)
        | (genRoot, None) =>
            Ok {| BlockContainers :=
                    [mkBeaconBlockContainer genBlk genRoot];
                  TotalSize := int32 1;
                  NextPageToken := "0" |}
        end
      end
    | Filter_nil =>
        Err (Status InvalidArgument
               "Must specify a filter criteria for fetching blocks")
    end.

(** The event-type constants [blockfeed.ReceivedBlock] and
    [statefeed.BlockProcessed]. *)
Variable ReceivedBlock : Z.
Variable BlockProcessed : Z.

(** The body of the [for { select { ... } }] of [StreamBlocks]. *)
Definition StreamBlocks_iteration
    (stream : ServerStream SignedBeaconBlock) (c : selected)
    : iteration SignedBeaconBlock :=
  match c with
  | case_event event =>
    if feed.Typ event =? ReceivedBlock then
      match feed.Data event with
      | feed.is_ReceivedBlockData data =>
        match blockfeed.SignedBlock data with
        | None => Continue stream
        | Some signedBlock =>
          match Send stream signedBlock with
          | (stream', Some err) =>
              Return stream'
                (Status Unavailable
                   ("Could not send over stream: " +:+ err))
          | (stream', None) => Continue stream'
          end
        end
      | feed.is_other =>
          Return stream
            (Status FailedPrecondition
               "Could not subscribe to block feed, received bad data: {<nil>}")
      end
    else Continue stream
  | case_subErr =>
      Return stream (Status Aborted "Subscriber closed, exiting goroutine")
  | case_bsCtxDone => Return stream (Status Canceled "Context canceled")
  | case_streamCtxDone => Return stream (Status Canceled "Context canceled")
  end.

(** [StreamBlocks] along the cases its select takes, one per
    iteration. *)
Fixpoint StreamBlocks (stream : ServerStream SignedBeaconBlock)
    (choices : list selected)
    : ServerStream SignedBeaconBlock * exit :=
  match choices with
  | [] => (stream, Waiting)
  | c :: rest =>
    match StreamBlocks_iteration stream c with
    | Continue stream' => StreamBlocks stream' rest
    | Return stream' err => (stream', Returned err)
    | Crash stream' => (stream', Panicked)
    end
  end.

(** The body of the loop of [StreamChainHead]; [bs] is the server as
    this iteration finds it. *)
Definition StreamChainHead_iteration
    (stream : ServerStream ChainHead) (bs : Server) (c : selected)
    : iteration ChainHead :=
  match c with
  | case_event event =>
    if feed.Typ event =? BlockProcessed then
      match chainHeadRetrieval bs with
      | Ok res =>
        match Send stream res with
        | (stream', Some err) =>
            Return stream'
              (Status Unavailable ("Could not send over stream: " +:+ err))
        | (stream', None) => Continue stream'
        end
      | Err err =>
          Return stream
            (Status Internal
               ("Could not retrieve chain head: " +:+ status.Error err))
      | Panic => Crash stream
      end
    else Continue stream
  | case_subErr =>
      Return stream (Status Aborted "Subscriber closed, exiting goroutine")
  | case_bsCtxDone => Return stream (Status Canceled "Context canceled")
  | case_streamCtxDone => Return stream (Status Canceled "Context canceled")
  end.

Fixpoint StreamChainHead (stream : ServerStream ChainHead)
    (choices : list (Server * selected))
    : ServerStream ChainHead * exit :=
  match choices with
  | [] => (stream, Waiting)
  | (bs, c) :: rest =>
    match StreamChainHead_iteration stream bs c with
    | Continue stream' => StreamChainHead stream' rest
    | Return stream' err => (stream', Returned err)
    | Crash stream' => (stream', Panicked)
    end
  end.

End Handlers.
End beacon.

(** ** The blockchain service: checkpoints, block lookup, state pruning

    [service.go] of the blockchain package is known here through its
    test file only; the operations below follow the service's written
    specification. *)

Module blockchain.
Import ethpb.

(** A state snapshot, as the test builds it: [pb.BeaconState{Slot: i}]. *)
Record BeaconState : Type := mkBeaconState {
  state_Slot : Z
}.

(** Modelled from the spec: the checkpoint store of the service (its
    source file is absent), three (epoch, root) pairs. *)
Record CheckpointStore : Type := mkCheckpointStore {
  finalized : Checkpoint;
  justified : Checkpoint;
  previousJustified : Checkpoint
}.

Inductive ingestError : Set :=
| OrphanBlock
| InvalidCheckpoint.

(** Modelled from the spec: [setFinalized] (its source file is absent)
    rejects a checkpoint whose epoch is lower than the stored finalized
    epoch and stores any other. *)
Definition setFinalized (cp : Checkpoint) (cs : CheckpointStore)
    : CheckpointStore * option ingestError :=
  if Epoch cp <? Epoch (finalized cs) then (cs, Some InvalidCheckpoint)
  else (mkCheckpointStore cp (justified cs) (previousJustified cs), None).

(** A sequence of [setFinalized] calls, with the store after each. *)
Fixpoint setFinalized_calls (cps : list Checkpoint) (cs : CheckpointStore)
    : list CheckpointStore :=
  match cps with
  | [] => []
  | cp :: rest =>
      let cs' := fst (setFinalized cp cs) in
      cs' :: setFinalized_calls rest cs'
  end.

(** Modelled from the spec: a node of the fork-choice graph (the
    protoarray package is absent). *)
Record ForkChoiceNode : Type := mkForkChoiceNode {
  node_ParentRoot : Bytes32;
  node_Weight : Z
}.

(** Modelled from the spec: the durable store of the service (the
    database package is absent), blocks and states keyed by block root. *)
Record Database : Type := mkDatabase {
  blocks : gmap Bytes32 SignedBeaconBlock;
  states : gmap Bytes32 BeaconState
}.

(** Modelled from the spec: the service with its head reference, its
    checkpoints, the fork-choice graph and the durable store
    ([service.go] is absent). *)
Record Service : Type := mkService {
  beaconDB : Database;
  forkChoiceStore : gmap Bytes32 ForkChoiceNode;
  headRoot : Bytes32;
  checkpoints : CheckpointStore
}.

(** Modelled from the spec: [HasNode] of the fork-choice graph. *)
Definition HasNode (f : gmap Bytes32 ForkChoiceNode) (root : Bytes32) : bool :=
  bool_decide (is_Some (f !! root)).

(** Modelled from the spec: [HasBlock] of the durable store. *)
Definition HasBlock (d : Database) (root : Bytes32) : bool :=
  bool_decide (is_Some (blocks d !! root)).

(** Modelled from the spec: [hasBlock] ([service.go] is absent): the
    graph first, the durable store as the fallback. *)
Definition hasBlock (s : Service) (root : Bytes32) : bool :=
  if HasNode (forkChoiceStore s) root then true
  else HasBlock (beaconDB s) root.

(** Modelled from the spec: the roots whose states pruning must keep
    ([service.go] is absent), the head's and those of the three
    checkpoints. *)
Definition protectedRoots (s : Service) : list Bytes32 :=
  [ headRoot s;
    Root (finalized (checkpoints s));
    Root (justified (checkpoints s));
    Root (previousJustified (checkpoints s)) ].

(** Modelled from the spec: the roots pruning deletes ([service.go] is
    absent), those of the persisted states below [belowSlot] that are not
    protected. *)
Definition garbageRoots (s : Service) (belowSlot : Z) : list Bytes32 :=
  omap (fun kv : Bytes32 * BeaconState =>
          if (state_Slot kv.2 <? belowSlot)
             && negb (bool_decide (kv.1 ∈ protectedRoots s))
          then Some kv.1 else None)
       (map_to_list (states (beaconDB s))).

(** Modelled from the spec: [DeleteStates] of the durable store. *)
Definition DeleteStates (roots : list Bytes32) (d : Database) : Database :=
  mkDatabase (blocks d) (foldr delete (states d) roots).

(** Modelled from the spec: [pruneGarbageState] ([service.go] is
    absent) deletes the state snapshots of all persisted slots strictly
    below [belowSlot], but never the state of the head or of one of the
    three checkpoints. *)
Definition pruneGarbageState (s : Service) (belowSlot : Z)
    : Service * option string :=
  (mkService (DeleteStates (garbageRoots s belowSlot) (beaconDB s))
             (forkChoiceStore s) (headRoot s) (checkpoints s),
   None).
End blockchain.

(** ** Vocabulary of the statements *)

(** The block a root resolves to in the database: the lookup succeeds
    with a block that carries a body. *)
Definition resolvesTo (d : db.Database) (root : Bytes32)
    (blk : ethpb.BeaconBlock) : Prop :=
  exists b, db.Block d root = (Some b, None) /\ ethpb.Block b = Some blk.

(** A root that resolves to no block. *)
Definition unresolved (d : db.Database) (root : Bytes32) : Prop :=
  forall blk, ~ resolvesTo d root blk.

(** No block matches the filter of a request: the range lookup of an
    epoch or slot filter yields no block, the root lookup yields nil, the
    genesis lookup yields nil; none of them with an error. *)
Definition noMatch (ToBytes32 : Bytes -> Bytes32) (d : db.Database)
    (q : ethpb.isListBlocksRequest_QueryFilter) : Prop :=
  match q with
  | ethpb.ListBlocksRequest_Epoch epoch =>
      db.Blocks d (filters.SetEndEpoch epoch
                     (filters.SetStartEpoch epoch filters.NewFilter))
      = ([], None)
  | ethpb.ListBlocksRequest_Slot slot =>
      db.Blocks d (filters.SetEndSlot slot
                     (filters.SetStartSlot slot filters.NewFilter))
      = ([], None)
  | ethpb.ListBlocksRequest_Root root =>
      db.Block d (ToBytes32 root) = (None, None)
  | ethpb.ListBlocksRequest_Genesis _ => db.GenesisBlock d = (None, None)
  | ethpb.Filter_nil => False
  end.

(** The response that reports no block. *)
Definition emptyResponse : ethpb.ListBlocksResponse :=
  {| ethpb.BlockContainers := []; ethpb.TotalSize := 0;
     ethpb.NextPageToken := "0" |}.

(** A root or a genesis filter. *)
Definition singleBlockFilter (q : ethpb.isListBlocksRequest_QueryFilter)
    : Prop :=
  match q with
  | ethpb.ListBlocksRequest_Root _ | ethpb.ListBlocksRequest_Genesis _ => True
  | _ => False
  end.

(** ** Concrete collaborators and inputs for the examples *)

Module sample.
Import ethpb beacon.

Definition HashTreeRoot (b : option BeaconBlock) : Bytes32 * option string :=
  match b with
  | Some blk => (StateRoot blk, None)
  | None => ([], Some "nil block")
  end.

Definition ToBytes32 (x : Bytes) : Bytes32 :=
  firstn 32 x ++ repeat x00 (32 - length x)%nat.

Definition SlotToEpoch (slot : Z) : Z := slot / 32.

Definition StartAndEndPage (pageToken : string) (pageSize totalSize : Z)
    : Z * Z * string * option string :=
  (0, totalSize, EmptyString, None).

Definition MaxPageSize : Z := 500.

Definition root (tag : byte) : Bytes32 := repeat tag 32%nat.

Definition blockAt (slot : Z) (tag : byte) : SignedBeaconBlock :=
  mkSignedBeaconBlock (Some (mkBeaconBlock slot [] (root tag) [])) [].

(** A database holding the listed blocks under the listed roots, with no
    genesis block and nothing under any slot or epoch. *)
Definition store (l : list (Bytes32 * SignedBeaconBlock)) : db.Database :=
  db.mkDatabase
    (fun r => (snd <$> List.find (fun kv => bool_decide (kv.1 = r)) l, None))
    (fun _ => ([], None))
    (None, None).

Definition fetchers : FinalizationFetcher :=
  mkFinalizationFetcher (mkCheckpoint 2 (root x01)) (mkCheckpoint 3 (root x02))
                        (mkCheckpoint 2 (root x01)).

(** Head at slot 100; finalized epoch 2 at root 01.., justified epoch 3
    at root 02... *)
Definition server : Server :=
  mkServer (store [(root x01, blockAt 64 x01); (root x02, blockAt 96 x02)])
           (mkHeadFetcher (Some (blockAt 100 x0a)))
           fetchers.

(** The same with the finalized block removed from storage. *)
Definition server_without_finalized : Server :=
  mkServer (store [(root x02, blockAt 96 x02)])
           (mkHeadFetcher (Some (blockAt 100 x0a)))
           fetchers.

(** A server whose head block is not set yet. *)
Definition server_without_head : Server :=
  mkServer (store [(root x01, blockAt 64 x01); (root x02, blockAt 96 x02)])
           (mkHeadFetcher None)
           fetchers.
Definition request (q : isListBlocksRequest_QueryFilter) (pageSize : Z)
    : ListBlocksRequest :=
  mkListBlocksRequest q pageSize EmptyString.
(** The event-type constants, each the first of its package. *)
Definition ReceivedBlock : Z := 1.
Definition BlockProcessed : Z := 1.

(** A fresh stream whose transport accepts every message. *)
Definition stream {M : Type} : ServerStream M :=
  mkServerStream [] (fun _ _ => None).

Definition receivedBlock (b : option SignedBeaconBlock) : feed.Event :=
  feed.mkEvent ReceivedBlock
    (feed.is_ReceivedBlockData (blockfeed.mkReceivedBlockData b)).

Definition blockProcessed : feed.Event :=
  feed.mkEvent BlockProcessed feed.is_other.
End sample.

(** Inputs for the examples on the blockchain service. *)
Module sample_chain.
Import ethpb blockchain.

(** The root standing for the block of slot [i]. *)
Definition rootOf (i : nat) : Bytes32 :=
  repeat x00 31%nat ++ [default x00 (Byte.of_N (N.of_nat i))].

(** As the pruning test sets up the database: a block and a state for
    each of the slots 0 to [n - 1]. *)
Definition sequential (n : nat) : Database :=
  mkDatabase
    (list_to_map
       (map (fun i => (rootOf i,
                       mkSignedBeaconBlock
                         (Some (mkBeaconBlock (Z.of_nat i) [] [] [])) []))
            (seq 0 n)))
    (list_to_map
       (map (fun i => (rootOf i, mkBeaconState (Z.of_nat i))) (seq 0 n))).

(** Head at slot 10, finalized at slot 3, justified at slot 7, previous
    justified at slot 3; a graph holding only slot 200. *)
Definition service : Service :=
  mkService (sequential 100)
            {[ rootOf 200 := mkForkChoiceNode (rootOf 99) 0 ]}
            (rootOf 10)
            (mkCheckpointStore (mkCheckpoint 2 (rootOf 3))
                               (mkCheckpoint 3 (rootOf 7))
                               (mkCheckpoint 2 (rootOf 3))).
End sample_chain.

(** ** Test doubles of the test files *)

Module event.
(** A [*event.Feed]: the address of a feed on the heap. *)
Definition Feed_ptr : Type := nat.

(** The heap of feeds: the addresses below [allocated] are in use. *)
Record heap : Type := mkHeap {
  allocated : nat
}.

(** [new(event.Feed)]: a pointer to a fresh feed. *)
Definition new_Feed (h : heap) : Feed_ptr * heap :=
  (allocated h, mkHeap (S (allocated h))).
End event.

(** The doubles of the blockchain service's test file. *)
Module blockchain_test.



End blockchain_test.

(** The double of the slashing detection's test file. *)
Module detection_test.

(** The methods of the stateless [mockNotifier]. *)
Inductive method : Set :=
| BlockFeed
| AttestationFeed.

Definition call (m : method) (h : event.heap) : event.Feed_ptr * event.heap :=
  match m with
  | BlockFeed => event.new_Feed h
  | AttestationFeed => event.new_Feed h
  end.

(** A sequence of calls on one [mockNotifier], with the feed each
    returned. *)
Fixpoint calls (ms : list method) (h : event.heap)
    : list event.Feed_ptr * event.heap :=
  match ms with
  | [] => ([], h)
  | m :: rest =>
      let (feed, h1) := call m h in
      let (feeds, h2) := calls rest h1 in
      (feed :: feeds, h2)
  end.
End detection_test.

(** ** More vocabulary of the statements *)

(** The range filter an epoch or a slot request hands to the database. *)
Definition rangeFilter (q : ethpb.isListBlocksRequest_QueryFilter)
    : option filters.QueryFilter :=
  match q with
  | ethpb.ListBlocksRequest_Epoch epoch =>
      Some (filters.SetEndEpoch epoch
              (filters.SetStartEpoch epoch filters.NewFilter))
  | ethpb.ListBlocksRequest_Slot slot =>
      Some (filters.SetEndSlot slot
              (filters.SetStartSlot slot filters.NewFilter))
  | _ => None
  end.

(** The error of the one database lookup a request's filter leads to. *)
Definition lookupError (ToBytes32 : Bytes -> Bytes32) (d : db.Database)
    (q : ethpb.isListBlocksRequest_QueryFilter) : option string :=
  match q with
  | ethpb.ListBlocksRequest_Root root => snd (db.Block d (ToBytes32 root))
  | ethpb.ListBlocksRequest_Genesis _ => snd (db.GenesisBlock d)
  | ethpb.Filter_nil => None
  | _ => match rangeFilter q with
         | Some f => snd (db.Blocks d f)
         | None => None
         end
  end.



(** The block a block-feed event asks [StreamBlocks] to forward, if any. *)
Definition forwardedBlock (ReceivedBlock : Z) (event : feed.Event)
    : option ethpb.SignedBeaconBlock :=
  if feed.Typ event =? ReceivedBlock then
    match feed.Data event with
    | feed.is_ReceivedBlockData data => blockfeed.SignedBlock data
    | feed.is_other => None
    end
  else None.

(** The snapshot a state-feed event makes [StreamChainHead] send, if any,
    with the server as the iteration finds it. *)
Definition snapshotFor
    (HashTreeRoot : option ethpb.BeaconBlock -> Bytes32 * option string)
    (ToBytes32 : Bytes -> Bytes32) (SlotToEpoch : Z -> Z) (BlockProcessed : Z)
    (x : beacon.Server * feed.Event) : option ethpb.ChainHead :=
  if feed.Typ x.2 =? BlockProcessed then
    match beacon.chainHeadRetrieval HashTreeRoot ToBytes32 SlotToEpoch x.1 with
    | Ok res => Some res
    | _ => None
    end
  else None.

(** A block-feed event whose data has the type its event type promises. *)
Definition wellTyped (ReceivedBlock : Z) (event : feed.Event) : Prop :=
  feed.Typ event = ReceivedBlock ->
  exists data, feed.Data event = feed.is_ReceivedBlockData data.

(** A transport that accepts every message. *)
Definition reliable {M : Type} (stream : ServerStream M) : Prop :=
  forall history m, transport stream history m = None.

(** The status code of a handler that returned. *)
Definition exitCode (e : exit) : option codes.Code :=
  match e with
  | Returned err => status.Code err
  | _ => None
  end.

(** Concrete inputs for the further examples. *)
Module sample_more.
Import ethpb beacon.

(** A database whose single range lookup result is [blks]. *)
Definition rangeStore (blks : list SignedBeaconBlock) : db.Database :=
  db.mkDatabase (fun _ => (None, None)) (fun _ => (blks, None)) (None, None).

Definition threeBlocks : list SignedBeaconBlock :=
  [sample.blockAt 7 x01; sample.blockAt 7 x02; sample.blockAt 7 x03].

Definition rangeServer : Server :=
  mkServer (rangeStore threeBlocks) (mkHeadFetcher None) sample.fetchers.

(** A database whose every lookup fails. *)
Definition brokenStore : db.Database :=
  db.mkDatabase (fun _ => (None, Some "disk"))
                (fun _ => ([], Some "disk"))
                (None, Some "disk").

Definition brokenServer : Server :=
  mkServer brokenStore (mkHeadFetcher None) sample.fetchers.


(** Pagination that reaches past the end of the list. *)
Definition overrunningStartAndEndPage (pageToken : string)
    (pageSize totalSize : Z) : Z * Z * string * option string :=
  (0, totalSize + 1, EmptyString, None).

(** A head block without a body. *)
Definition server_with_empty_head : Server :=
  mkServer (sample.store [(sample.root x01, sample.blockAt 64 x01);
                          (sample.root x02, sample.blockAt 96 x02)])
           (mkHeadFetcher (Some (mkSignedBeaconBlock None [])))
           sample.fetchers.

(** A root computation that accepts a nil block. *)
Definition lenientHashTreeRoot (b : option BeaconBlock)
    : Bytes32 * option string :=
  match b with
  | Some blk => (StateRoot blk, None)
  | None => (sample.root x00, None)
  end.

(** A stream whose transport refuses every message. *)
Definition brokenStream {M : Type} : ServerStream M :=
  mkServerStream [] (fun _ _ => Some "closed").

Definition otherEvent : feed.Event := feed.mkEvent 2 feed.is_other.

End sample_more.

(** ** Chain-head retrieval *)

Section ChainHeadRetrieval.
Import codes status ethpb beacon.
Variable HashTreeRoot : option BeaconBlock -> Bytes32 * option string.
Variable ToBytes32 : Bytes -> Bytes32.
Variable SlotToEpoch : Z -> Z.

Lemma checkpointBlock_Some r blk :
  checkpointBlock r = Some blk <->
  exists b, r = (Some b, None) /\ Block b = Some blk.
Proof.
  destruct r as [[b|] [e|]]; simpl; split;
    try (intros [b' [Heq _]]; discriminate); try discriminate.
  - intros H. exists b. auto.
  - intros [b' [Heq Hb]]. injection Heq as ->. exact Hb.
Qed.

Lemma checkpointBlock_None d root :
  unresolved d root -> checkpointBlock (db.Block d root) = None.
Proof.
  intros Hun. destruct (checkpointBlock (db.Block d root)) as [blk|] eqn:E; auto.
  exfalso. apply (Hun blk). apply checkpointBlock_Some in E. exact E.
Qed.

(** C1. [chainHeadRetrieval], and with it [GetChainHead], fails with an
    [Internal] status and no response whenever the head block is unset or
    the root of the finalized, justified or previous-justified checkpoint
    does not resolve to a stored block with a body; and it answers [Ok]
    exactly when the head block and the three checkpoint blocks are there,
    with the head's slot, epoch and root and each checkpoint's epoch, root
    and the slot of the block its root resolves to. *)
Theorem chainHeadRetrieval_internal_or_complete (bs : Server) :
  let d := BeaconDB bs in
  let fin := FinalizedCheckpt (finalizationFetcher bs) in
  let jus := CurrentJustifiedCheckpt (finalizationFetcher bs) in
  let prev := PreviousJustifiedCheckpt (finalizationFetcher bs) in
  ((HeadBlock (headFetcher bs) = None
    \/ unresolved d (ToBytes32 (Root fin))
    \/ unresolved d (ToBytes32 (Root jus))
    \/ unresolved d (ToBytes32 (Root prev))) ->
   exists msg,
     chainHeadRetrieval HashTreeRoot ToBytes32 SlotToEpoch bs
       = Err (Status Internal msg)
     /\ GetChainHead HashTreeRoot ToBytes32 SlotToEpoch bs
       = Err (Status Internal msg))
  /\
  (forall res,
     chainHeadRetrieval HashTreeRoot ToBytes32 SlotToEpoch bs = Ok res <->
     exists headBlock hb headBlockRoot fb jb pb,
       HeadBlock (headFetcher bs) = Some headBlock
       /\ Block headBlock = Some hb
       /\ HashTreeRoot (Some hb) = (headBlockRoot, None)
       /\ resolvesTo d (ToBytes32 (Root fin)) fb
       /\ resolvesTo d (ToBytes32 (Root jus)) jb
       /\ resolvesTo d (ToBytes32 (Root prev)) pb
       /\ res = {| HeadSlot := Slot hb;
                   HeadEpoch := SlotToEpoch (Slot hb);
                   HeadBlockRoot := headBlockRoot;
                   FinalizedSlot := Slot fb;
                   FinalizedEpoch := Epoch fin;
                   FinalizedBlockRoot := Root fin;
                   JustifiedSlot := Slot jb;
                   JustifiedEpoch := Epoch jus;
                   JustifiedBlockRoot := Root jus;
                   PreviousJustifiedSlot := Slot pb;
                   PreviousJustifiedEpoch := Epoch prev;
                   PreviousJustifiedBlockRoot := Root prev |}).
Proof.
  intros d fin jus prev. split.
  - intros Hfail. unfold GetChainHead, chainHeadRetrieval.
    fold d fin jus prev.
    destruct (HeadBlock (headFetcher bs)) as [headBlock|]; [|eauto].
    destruct (HashTreeRoot (Block headBlock)) as [hroot [e|]]; [eauto|].
    destruct (checkpointBlock (db.Block d (ToBytes32 (Root fin))))
      as [fb|] eqn:Ef; [|eauto].
    destruct (checkpointBlock (db.Block d (ToBytes32 (Root jus))))
      as [jb|] eqn:Ej; [|eauto].
    destruct (checkpointBlock (db.Block d (ToBytes32 (Root prev))))
      as [pb|] eqn:Ep; [|eauto].
    exfalso.
    destruct Hfail as [H|[H|[H|H]]]; try discriminate;
      apply checkpointBlock_None in H; congruence.
  - intros res. unfold chainHeadRetrieval. fold d fin jus prev. split.
    + destruct (HeadBlock (headFetcher bs)) as [headBlock|]; [|discriminate].
      destruct (HashTreeRoot (Block headBlock)) as [hroot [e|]] eqn:Eh;
        [discriminate|].
      destruct (checkpointBlock (db.Block d (ToBytes32 (Root fin))))
        as [fb|] eqn:Ef; [|discriminate].
      destruct (checkpointBlock (db.Block d (ToBytes32 (Root jus))))
        as [jb|] eqn:Ej; [|discriminate].
      destruct (checkpointBlock (db.Block d (ToBytes32 (Root prev))))
        as [pb|] eqn:Ep; [|discriminate].
      destruct (Block headBlock) as [hb|] eqn:Eb; [|discriminate].
      intros [= <-].
      exists headBlock, hb, hroot, fb, jb, pb.
      apply checkpointBlock_Some in Ef, Ej, Ep.
      repeat split; auto.
    + intros (headBlock & hb & hroot & fb & jb & pb
              & -> & Eb & Eh & Hf & Hj & Hp & ->).
      rewrite Eb, Eh.
      apply checkpointBlock_Some in Hf, Hj, Hp.
      rewrite Hf, Hj, Hp. reflexivity.
Qed.

End ChainHeadRetrieval.

Lemma chainHeadRetrieval_sample :
  (exists msg,
     beacon.chainHeadRetrieval sample.HashTreeRoot sample.ToBytes32
       sample.SlotToEpoch sample.server_without_finalized
     = Err (status.Status codes.Internal msg)
     /\ beacon.GetChainHead sample.HashTreeRoot sample.ToBytes32
          sample.SlotToEpoch sample.server_without_finalized
        = Err (status.Status codes.Internal msg))
  /\ beacon.chainHeadRetrieval sample.HashTreeRoot sample.ToBytes32
       sample.SlotToEpoch sample.server
     = Ok (ethpb.mkChainHead 100 3 (sample.root x0a)
             64 2 (sample.root x01) 96 3 (sample.root x02)
             64 2 (sample.root x01)).
Proof.
  split.
  - apply (chainHeadRetrieval_internal_or_complete sample.HashTreeRoot
             sample.ToBytes32 sample.SlotToEpoch
             sample.server_without_finalized).
    right; left. intros blk [b [H _]]. vm_compute in H. discriminate H.
  - apply (chainHeadRetrieval_internal_or_complete sample.HashTreeRoot
             sample.ToBytes32 sample.SlotToEpoch sample.server).
    exists (sample.blockAt 100 x0a),
           (ethpb.mkBeaconBlock 100 [] (sample.root x0a) []),
           (sample.root x0a),
           (ethpb.mkBeaconBlock 64 [] (sample.root x01) []),
           (ethpb.mkBeaconBlock 96 [] (sample.root x02) []),
           (ethpb.mkBeaconBlock 64 [] (sample.root x01) []).
    repeat split; try reflexivity;
      eexists; split; vm_compute; reflexivity.
Defined.

(** ** ListBlocks *)

Section ListBlocks.
Import codes status ethpb beacon.
Variable HashTreeRoot : option BeaconBlock -> Bytes32 * option string.
Variable ToBytes32 : Bytes -> Bytes32.
Variable StartAndEndPage : string -> Z -> Z -> Z * Z * string * option string.
Variable MaxPageSize : Z.

Lemma pageOfBlocks_nil req :
  pageOfBlocks HashTreeRoot StartAndEndPage req [] = Ok emptyResponse.
Proof. reflexivity. Qed.

Lemma pageOfBlocks_not_InvalidArgument req blks msg :
  pageOfBlocks HashTreeRoot StartAndEndPage req blks
  <> Err (Status InvalidArgument msg).
Proof.
  unfold pageOfBlocks.
  destruct (Z.of_nat (length blks) =? 0); [discriminate|].
  destruct (StartAndEndPage _ _ _) as [[[start end_] token] [e|]];
    [discriminate|].
  destruct (slice blks start end_) as [returned|]; [|discriminate].
  destruct (containersOf HashTreeRoot returned) as [cs [e|]]; discriminate.
Qed.

Lemma page_size_guard req :
  (PageSize req >? MaxPageSize) = true <-> PageSize req > MaxPageSize.
Proof. rewrite Z.gtb_ltb, Z.ltb_lt. lia. Qed.

Lemma page_size_within req :
  PageSize req <= MaxPageSize -> (PageSize req >? MaxPageSize) = false.
Proof.
  intros H. destruct (PageSize req >? MaxPageSize) eqn:E; auto.
  apply page_size_guard in E. lia.
Qed.

(** C3, amended. With a page size within the limit and no block matching
    the filter, an epoch, root or slot request is answered with the empty
    response (no containers, total size 0, next-page token 0), and a
    genesis request fails with [Internal]: a node without its genesis
    block is not in order. *)
Theorem ListBlocks_no_match (bs : Server) (req : ListBlocksRequest) :
  PageSize req <= MaxPageSize ->
  noMatch ToBytes32 (BeaconDB bs) (QueryFilter req) ->
  ListBlocks HashTreeRoot ToBytes32 StartAndEndPage MaxPageSize bs req
  = match QueryFilter req with
    | ListBlocksRequest_Genesis _ =>
        Err (Status Internal "Could not find genesis block")
    | _ => Ok emptyResponse
    end.
Proof.
  intros Hsize Hnone. unfold ListBlocks.
  rewrite (page_size_within _ Hsize).
  destruct (QueryFilter req); simpl in Hnone; try contradiction;
    rewrite Hnone; reflexivity.
Qed.

(** C8. [ListBlocks] ends with an [InvalidArgument] status in exactly two
    cases, a page size above the configured maximum and a request without
    a filter; the call then returns the error and no response. *)
Theorem ListBlocks_InvalidArgument_iff (bs : Server) (req : ListBlocksRequest) :
  (exists msg,
     ListBlocks HashTreeRoot ToBytes32 StartAndEndPage MaxPageSize bs req
     = Err (Status InvalidArgument msg))
  <-> (PageSize req > MaxPageSize \/ QueryFilter req = Filter_nil).
Proof.
  unfold ListBlocks.
  destruct (PageSize req >? MaxPageSize) eqn:Eguard.
  - split; [|eauto]. intros _. left. now apply page_size_guard.
  - assert (Hle : ~ PageSize req > MaxPageSize).
    { intros H. apply page_size_guard in H. congruence. }
    split.
    + intros [msg H]. right.
      destruct (QueryFilter req) as [root|slot|epoch|g|]; auto; exfalso.
      * destruct (db.Block _ _) as [[blk|] [e|]]; try discriminate.
        destruct (HashTreeRoot _) as [r [e|]]; discriminate.
      * destruct (db.Blocks _ _) as [blks [e|]]; try discriminate.
        now apply pageOfBlocks_not_InvalidArgument in H.
      * destruct (db.Blocks _ _) as [blks [e|]]; try discriminate.
        now apply pageOfBlocks_not_InvalidArgument in H.
      * destruct (db.GenesisBlock _) as [[blk|] [e|]]; try discriminate.
        destruct (HashTreeRoot _) as [r [e|]]; discriminate.
    + intros [H| ->]; [contradiction|eauto].
Qed.

(** C9, amended. With a page size within the limit, a root request whose
    root resolves to a stored block with a computable root is answered
    with exactly one container, that block with its root, and total size
    1; and for root and genesis requests the answer depends neither on the
    page token nor on the page size, as long as that stays within the
    limit. *)
Theorem ListBlocks_single_block (bs : Server) (req : ListBlocksRequest) :
  PageSize req <= MaxPageSize ->
  (forall root blk blkRoot,
     QueryFilter req = ListBlocksRequest_Root root ->
     db.Block (BeaconDB bs) (ToBytes32 root) = (Some blk, None) ->
     HashTreeRoot (Block blk) = (blkRoot, None) ->
     ListBlocks HashTreeRoot ToBytes32 StartAndEndPage MaxPageSize bs req
     = Ok {| BlockContainers := [mkBeaconBlockContainer blk blkRoot];
             TotalSize := 1;
             NextPageToken := EmptyString |})
  /\
  (forall req',
     singleBlockFilter (QueryFilter req) ->
     QueryFilter req' = QueryFilter req ->
     PageSize req' <= MaxPageSize ->
     ListBlocks HashTreeRoot ToBytes32 StartAndEndPage MaxPageSize bs req'
     = ListBlocks HashTreeRoot ToBytes32 StartAndEndPage MaxPageSize bs req).
Proof.
  intros Hsize. split.
  - intros root blk blkRoot Hq Hblk Hroot. unfold ListBlocks.
    rewrite (page_size_within _ Hsize), Hq, Hblk, Hroot. reflexivity.
  - intros req' Hsingle Hq Hsize'. unfold ListBlocks.
    rewrite (page_size_within _ Hsize), (page_size_within _ Hsize'), Hq.
    destruct (QueryFilter req); simpl in Hsingle; try contradiction;
      reflexivity.
Qed.

End ListBlocks.

Lemma ListBlocks_no_match_sample :
  beacon.ListBlocks sample.HashTreeRoot sample.ToBytes32
    sample.StartAndEndPage sample.MaxPageSize sample.server
    (sample.request (ethpb.ListBlocksRequest_Epoch 7) 10)
  = Ok emptyResponse.
Proof.
  apply (ListBlocks_no_match sample.HashTreeRoot sample.ToBytes32
           sample.StartAndEndPage sample.MaxPageSize sample.server
           (sample.request (ethpb.ListBlocksRequest_Epoch 7) 10)).
  - vm_compute. discriminate.
  - reflexivity.
Defined.

(** A genesis request against a database without a genesis block: a valid
    filter, a page size within the limit, no block matching, and yet an
    [Internal] error instead of the empty response. *)
Lemma ListBlocks_genesis_absent :
  let req := sample.request (ethpb.ListBlocksRequest_Genesis true) 10 in
  ethpb.PageSize req <= sample.MaxPageSize
  /\ noMatch sample.ToBytes32 (beacon.BeaconDB sample.server)
       (ethpb.QueryFilter req)
  /\ beacon.ListBlocks sample.HashTreeRoot sample.ToBytes32
       sample.StartAndEndPage sample.MaxPageSize sample.server req
     = Err (status.Status codes.Internal "Could not find genesis block")
  /\ ~ (exists resp,
          beacon.ListBlocks sample.HashTreeRoot sample.ToBytes32
            sample.StartAndEndPage sample.MaxPageSize sample.server req
          = Ok resp).
Proof.
  cbv zeta. split; [vm_compute; discriminate|].
  split; [reflexivity|]. split; [reflexivity|].
  intros [resp H]. vm_compute in H. discriminate H.
Qed.

Lemma ListBlocks_single_block_sample :
  beacon.ListBlocks sample.HashTreeRoot sample.ToBytes32
    sample.StartAndEndPage sample.MaxPageSize sample.server
    (sample.request (ethpb.ListBlocksRequest_Root (sample.root x01)) 10)
  = Ok {| ethpb.BlockContainers :=
            [ethpb.mkBeaconBlockContainer (sample.blockAt 64 x01)
               (sample.root x01)];
          ethpb.TotalSize := 1;
          ethpb.NextPageToken := EmptyString |}.
Proof.
  apply (ListBlocks_single_block sample.HashTreeRoot sample.ToBytes32
           sample.StartAndEndPage sample.MaxPageSize sample.server
           (sample.request (ethpb.ListBlocksRequest_Root (sample.root x01)) 10))
    with (root := sample.root x01).
  - vm_compute. discriminate.
  - reflexivity.
  - vm_compute. reflexivity.
  - reflexivity.
Defined.

(** A root request for a stored block with a page size above the limit:
    the page size decides the answer, which is an [InvalidArgument] error
    and not the one container. *)
Lemma ListBlocks_root_oversized_page :
  let req :=
    sample.request (ethpb.ListBlocksRequest_Root (sample.root x01)) 501 in
  db.Block (beacon.BeaconDB sample.server)
    (sample.ToBytes32 (sample.root x01))
  = (Some (sample.blockAt 64 x01), None)
  /\ (exists msg,
        beacon.ListBlocks sample.HashTreeRoot sample.ToBytes32
          sample.StartAndEndPage sample.MaxPageSize sample.server req
        = Err (status.Status codes.InvalidArgument msg))
  /\ beacon.ListBlocks sample.HashTreeRoot sample.ToBytes32
       sample.StartAndEndPage sample.MaxPageSize sample.server req
     <> beacon.ListBlocks sample.HashTreeRoot sample.ToBytes32
          sample.StartAndEndPage sample.MaxPageSize sample.server
          (sample.request (ethpb.ListBlocksRequest_Root (sample.root x01)) 10).
Proof.
  cbv zeta. split; [vm_compute; reflexivity|].
  split; [eexists; vm_compute; reflexivity|].
  vm_compute. discriminate.
Qed.

(** ** Stream loops *)

Section Streams.
Import codes status ethpb beacon.
Variable HashTreeRoot : option BeaconBlock -> Bytes32 * option string.
Variable ToBytes32 : Bytes -> Bytes32.
Variable SlotToEpoch : Z -> Z.
Variable ReceivedBlock : Z.
Variable BlockProcessed : Z.

Abbreviation blocksLoop := (StreamBlocks ReceivedBlock).
Abbreviation blocksBody := (StreamBlocks_iteration ReceivedBlock).
Abbreviation headLoop :=
  (StreamChainHead HashTreeRoot ToBytes32 SlotToEpoch BlockProcessed).
Abbreviation headBody :=
  (StreamChainHead_iteration HashTreeRoot ToBytes32 SlotToEpoch BlockProcessed).
Abbreviation retrieve := (chainHeadRetrieval HashTreeRoot ToBytes32 SlotToEpoch).

(** A loop that is still waiting goes on with whatever comes next. *)
Lemma StreamBlocks_app stream pre mid post :
  blocksLoop stream pre = (mid, Waiting) ->
  blocksLoop stream (pre ++ post) = blocksLoop mid post.
Proof.
  revert stream. induction pre as [|c pre IH]; intros stream; simpl.
  - intros [= ->]. reflexivity.
  - destruct (blocksBody stream c) as [s1|s1 e|s1]; try discriminate.
    apply IH.
Qed.

Lemma StreamChainHead_app stream pre mid post :
  headLoop stream pre = (mid, Waiting) ->
  headLoop stream (pre ++ post) = headLoop mid post.
Proof.
  revert stream. induction pre as [|[bs c] pre IH]; intros stream; simpl.
  - intros [= ->]. reflexivity.
  - destruct (headBody stream bs c) as [s1|s1 e|s1]; try discriminate.
    apply IH.
Qed.

(** A loop that returned did so in one iteration, after waiting through
    all the earlier ones. *)
Lemma StreamBlocks_returned stream choices stream' err :
  blocksLoop stream choices = (stream', Returned err) ->
  exists pre c post mid,
    choices = pre ++ c :: post
    /\ blocksLoop stream pre = (mid, Waiting)
    /\ blocksBody mid c = Return stream' err.
Proof.
  revert stream. induction choices as [|c rest IH]; intros stream; simpl.
  - discriminate.
  - destruct (blocksBody stream c) as [s1|s1 e|s1] eqn:E.
    + intros H. destruct (IH _ H) as (pre & c' & post & mid & -> & Hpre & Hc).
      exists (c :: pre), c', post, mid. simpl. rewrite E. auto.
    + intros [= -> ->]. exists [], c, rest, stream. auto.
    + discriminate.
Qed.

Lemma StreamChainHead_returned stream choices stream' err :
  headLoop stream choices = (stream', Returned err) ->
  exists pre bs c post mid,
    choices = pre ++ (bs, c) :: post
    /\ headLoop stream pre = (mid, Waiting)
    /\ headBody mid bs c = Return stream' err.
Proof.
  revert stream. induction choices as [|[bs c] rest IH]; intros stream; simpl.
  - discriminate.
  - destruct (headBody stream bs c) as [s1|s1 e|s1] eqn:E.
    + intros H.
      destruct (IH _ H) as (pre & bs' & c' & post & mid & -> & Hpre & Hc).
      exists ((bs, c) :: pre), bs', c', post, mid. simpl. rewrite E. auto.
    + intros [= -> ->]. exists [], bs, c, rest, stream. auto.
    + discriminate.
Qed.

(** The status of the iteration that ends [StreamBlocks] tells the case
    its select took. *)
Lemma StreamBlocks_iteration_status stream c stream' err :
  blocksBody stream c = Return stream' err ->
  (Code err = Some Aborted <-> c = case_subErr)
  /\ (Code err = Some Canceled <-> c = case_bsCtxDone \/ c = case_streamCtxDone).
Proof.
  destruct c as [event| | |]; simpl.
  - destruct (feed.Typ event =? ReceivedBlock); [|discriminate].
    destruct (feed.Data event) as [data|].
    + destruct (blockfeed.SignedBlock data) as [blk|]; [|discriminate].
      destruct (transport stream (sent stream) blk); [|discriminate].
      intros [= <- <-]. simpl. split; split; intros H;
        try discriminate; destruct H; discriminate.
    + intros [= <- <-]. simpl. split; split; intros H;
        try discriminate; destruct H; discriminate.
  - intros [= <- <-]. simpl. split; split; intros H; auto;
      try discriminate; destruct H; discriminate.
  - intros [= <- <-]. simpl. split; split; intros H; auto; discriminate.
  - intros [= <- <-]. simpl. split; split; intros H; auto; discriminate.
Qed.

Lemma StreamChainHead_iteration_status stream bs c stream' err :
  headBody stream bs c = Return stream' err ->
  (Code err = Some Aborted <-> c = case_subErr)
  /\ (Code err = Some Canceled <-> c = case_bsCtxDone \/ c = case_streamCtxDone).
Proof.
  destruct c as [event| | |]; simpl.
  - destruct (feed.Typ event =? BlockProcessed); [|discriminate].
    destruct (retrieve bs) as [res|e|].
    + destruct (transport stream (sent stream) res); [|discriminate].
      intros [= <- <-]. simpl. split; split; intros H;
        try discriminate; destruct H; discriminate.
    + intros [= <- <-]. simpl. split; split; intros H;
        try discriminate; destruct H; discriminate.
    + discriminate.
  - intros [= <- <-]. simpl. split; split; intros H; auto;
      try discriminate; destruct H; discriminate.
  - intros [= <- <-]. simpl. split; split; intros H; auto; discriminate.
  - intros [= <- <-]. simpl. split; split; intros H; auto; discriminate.
Qed.

(** C6. In both stream handlers, a loop that is waiting returns [Aborted]
    when its select takes the subscription's error case and [Canceled]
    when it takes the server context's or the stream context's done case,
    sending nothing more; and a handler that returned [Aborted] or
    [Canceled] did so through exactly those cases, so the two statuses
    tell the trigger and are never the status of a failed iteration. *)
Theorem stream_exit_status :
  (forall stream pre mid,
     blocksLoop stream pre = (mid, Waiting) ->
     blocksLoop stream (pre ++ [case_subErr])
     = (mid, Returned (Status Aborted "Subscriber closed, exiting goroutine"))
     /\ blocksLoop stream (pre ++ [case_bsCtxDone])
        = (mid, Returned (Status Canceled "Context canceled"))
     /\ blocksLoop stream (pre ++ [case_streamCtxDone])
        = (mid, Returned (Status Canceled "Context canceled")))
  /\
  (forall stream pre mid bs,
     headLoop stream pre = (mid, Waiting) ->
     headLoop stream (pre ++ [(bs, case_subErr)])
     = (mid, Returned (Status Aborted "Subscriber closed, exiting goroutine"))
     /\ headLoop stream (pre ++ [(bs, case_bsCtxDone)])
        = (mid, Returned (Status Canceled "Context canceled"))
     /\ headLoop stream (pre ++ [(bs, case_streamCtxDone)])
        = (mid, Returned (Status Canceled "Context canceled")))
  /\
  (forall stream choices stream' err,
     blocksLoop stream choices = (stream', Returned err) ->
     exists pre c post mid,
       choices = pre ++ c :: post
       /\ blocksLoop stream pre = (mid, Waiting)
       /\ (Code err = Some Aborted <-> c = case_subErr)
       /\ (Code err = Some Canceled <->
           c = case_bsCtxDone \/ c = case_streamCtxDone))
  /\
  (forall stream choices stream' err,
     headLoop stream choices = (stream', Returned err) ->
     exists pre bs c post mid,
       choices = pre ++ (bs, c) :: post
       /\ headLoop stream pre = (mid, Waiting)
       /\ (Code err = Some Aborted <-> c = case_subErr)
       /\ (Code err = Some Canceled <->
           c = case_bsCtxDone \/ c = case_streamCtxDone)).
Proof.
  repeat apply conj.
  - intros stream pre mid H.
    rewrite !(StreamBlocks_app _ _ _ _ H). auto.
  - intros stream pre mid bs H.
    rewrite !(StreamChainHead_app _ _ _ _ H). auto.
  - intros stream choices stream' err H.
    destruct (StreamBlocks_returned _ _ _ _ H)
      as (pre & c & post & mid & Hc & Hpre & Hit).
    exists pre, c, post, mid.
    destruct (StreamBlocks_iteration_status _ _ _ _ Hit). auto.
  - intros stream choices stream' err H.
    destruct (StreamChainHead_returned _ _ _ _ H)
      as (pre & bs & c & post & mid & Hc & Hpre & Hit).
    exists pre, bs, c, post, mid.
    destruct (StreamChainHead_iteration_status _ _ _ _ _ Hit). auto.
Qed.

(** C7, amended. When a waiting [StreamChainHead] loop receives an event:
    for a [BlockProcessed] event whose chain-head retrieval succeeds it
    hands exactly one snapshot, the retrieved one, to the stream; for a
    [BlockProcessed] event whose retrieval fails it sends nothing and
    returns [Internal]; for an event of any other type it sends nothing
    and goes on waiting. *)
Theorem StreamChainHead_one_snapshot_per_event
    (stream : ServerStream ChainHead) (pre : list (Server * selected))
    (mid : ServerStream ChainHead) (bs : Server) (event : feed.Event) :
  headLoop stream pre = (mid, Waiting) ->
  let after := headLoop stream (pre ++ [(bs, case_event event)]) in
  (feed.Typ event = BlockProcessed ->
   forall res, retrieve bs = Ok res -> sent (fst after) = sent mid ++ [res])
  /\
  (feed.Typ event = BlockProcessed ->
   forall err, retrieve bs = Err err ->
     after = (mid, Returned (Status Internal
                ("Could not retrieve chain head: " +:+ Error err))))
  /\
  (feed.Typ event <> BlockProcessed -> after = (mid, Waiting)).
Proof.
  intros Hpre after. subst after.
  rewrite (StreamChainHead_app _ _ _ _ Hpre). simpl.
  repeat apply conj.
  - intros -> res ->. rewrite Z.eqb_refl. simpl.
    destruct (transport mid (sent mid) res); reflexivity.
  - intros -> err ->. rewrite Z.eqb_refl. reflexivity.
  - intros Hne. apply Z.eqb_neq in Hne. rewrite Hne. reflexivity.
Qed.

(** C10. When a waiting [StreamBlocks] loop receives a [ReceivedBlock]
    event whose data carries a nil signed block, it sends nothing and goes
    on with the cases that follow; and whenever an iteration hands a
    message to the stream, the event was a [ReceivedBlock] event with a
    non-nil signed block, and that block is the one message handed over. *)
Theorem StreamBlocks_nil_block_skipped
    (stream : ServerStream SignedBeaconBlock) (pre : list selected)
    (mid : ServerStream SignedBeaconBlock) :
  blocksLoop stream pre = (mid, Waiting) ->
  (forall event post,
     feed.Typ event = ReceivedBlock ->
     feed.Data event
     = feed.is_ReceivedBlockData (blockfeed.mkReceivedBlockData None) ->
     blocksLoop stream (pre ++ [case_event event]) = (mid, Waiting)
     /\ blocksLoop stream (pre ++ case_event event :: post)
        = blocksLoop mid post)
  /\
  (forall c,
     sent (fst (blocksLoop stream (pre ++ [c]))) <> sent mid ->
     exists event signedBlock,
       c = case_event event
       /\ feed.Typ event = ReceivedBlock
       /\ feed.Data event
          = feed.is_ReceivedBlockData
              (blockfeed.mkReceivedBlockData (Some signedBlock))
       /\ sent (fst (blocksLoop stream (pre ++ [c])))
          = sent mid ++ [signedBlock])
  /\
  (forall event signedBlock,
     feed.Typ event = ReceivedBlock ->
     feed.Data event
     = feed.is_ReceivedBlockData
         (blockfeed.mkReceivedBlockData (Some signedBlock)) ->
     sent (fst (blocksLoop stream (pre ++ [case_event event])))
     = sent mid ++ [signedBlock]).
Proof.
  intros Hpre. repeat apply conj.
  - intros event post Ht Hd.
    rewrite !(StreamBlocks_app _ _ _ _ Hpre). simpl.
    rewrite Ht, Z.eqb_refl, Hd. simpl. auto.
  - intros c. rewrite (StreamBlocks_app _ _ _ _ Hpre). simpl.
    destruct c as [event| | |]; simpl; try congruence.
    destruct (feed.Typ event =? ReceivedBlock) eqn:Et; [|simpl; congruence].
    apply Z.eqb_eq in Et.
    destruct (feed.Data event) as [[[signedBlock|]]|] eqn:Ed;
      simpl; try congruence.
    intros _. exists event, signedBlock.
    destruct (transport mid (sent mid) signedBlock); simpl; auto.
  - intros event signedBlock Ht Hd.
    rewrite (StreamBlocks_app _ _ _ _ Hpre). simpl.
    rewrite Ht, Z.eqb_refl, Hd. simpl.
    destruct (transport mid (sent mid) signedBlock); reflexivity.
Qed.

End Streams.

Lemma stream_exit_status_sample :
  beacon.StreamBlocks sample.ReceivedBlock sample.stream
    ([case_event (sample.receivedBlock (Some (sample.blockAt 5 x05)))]
     ++ [case_streamCtxDone])
  = (mkServerStream [sample.blockAt 5 x05] (fun _ _ => None),
     Returned (status.Status codes.Canceled "Context canceled")).
Proof.
  apply (stream_exit_status sample.HashTreeRoot sample.ToBytes32
           sample.SlotToEpoch sample.ReceivedBlock sample.BlockProcessed).
  reflexivity.
Defined.

Lemma StreamChainHead_one_snapshot_sample :
  sent (fst (beacon.StreamChainHead sample.HashTreeRoot sample.ToBytes32
               sample.SlotToEpoch sample.BlockProcessed sample.stream
               ([] ++ [(sample.server, case_event sample.blockProcessed)])))
  = sent (sample.stream (M := ethpb.ChainHead))
    ++ [ethpb.mkChainHead 100 3 (sample.root x0a)
          64 2 (sample.root x01) 96 3 (sample.root x02)
          64 2 (sample.root x01)].
Proof.
  apply (StreamChainHead_one_snapshot_per_event sample.HashTreeRoot
           sample.ToBytes32 sample.SlotToEpoch sample.BlockProcessed
           sample.stream [] sample.stream sample.server sample.blockProcessed).
  - reflexivity.
  - reflexivity.
  - vm_compute. reflexivity.
Defined.

(** A [BlockProcessed] event received while the head block is unset: the
    loop receives the event, sends no snapshot and returns [Internal]. *)
Lemma StreamChainHead_no_snapshot_without_head :
  let run :=
    beacon.StreamChainHead sample.HashTreeRoot sample.ToBytes32
      sample.SlotToEpoch sample.BlockProcessed sample.stream
      [(sample.server_without_head, case_event sample.blockProcessed)] in
  feed.Typ sample.blockProcessed = sample.BlockProcessed
  /\ sent (fst run) = []
  /\ snd run
     = Returned
         (status.Status codes.Internal
            "Could not retrieve chain head: rpc error: code = Internal desc = Head block of chain was nil").
Proof. cbv zeta. repeat split. Qed.

Lemma StreamBlocks_nil_block_sample :
  beacon.StreamBlocks sample.ReceivedBlock sample.stream
    ([] ++ [case_event (sample.receivedBlock None)])
  = (sample.stream, Waiting)
  /\ beacon.StreamBlocks sample.ReceivedBlock sample.stream
       ([] ++ case_event (sample.receivedBlock None)
           :: [case_event (sample.receivedBlock (Some (sample.blockAt 5 x05)))])
     = beacon.StreamBlocks sample.ReceivedBlock sample.stream
         [case_event (sample.receivedBlock (Some (sample.blockAt 5 x05)))].
Proof.
  apply (StreamBlocks_nil_block_skipped sample.ReceivedBlock
           sample.stream [] sample.stream); reflexivity.
Defined.

(** ** The blockchain service *)

Section Blockchain.
Import ethpb blockchain.

Lemma setFinalized_step cp cs :
  Epoch (finalized cs) <= Epoch (finalized (fst (setFinalized cp cs))).
Proof.
  unfold setFinalized.
  destruct (Z.ltb_spec (Epoch cp) (Epoch (finalized cs))); simpl; lia.
Qed.

Lemma setFinalized_calls_sorted cps : forall cs,
  Sorted Z.le
    (Epoch (finalized cs)
     :: map (fun s => Epoch (finalized s)) (setFinalized_calls cps cs)).
Proof.
  induction cps as [|cp rest IH]; intros cs; simpl.
  - repeat constructor.
  - constructor; [apply IH|]. constructor. apply setFinalized_step.
Qed.

(** C2. Over every sequence of [setFinalized] calls the stored finalized
    epoch never decreases, from the first store on through the store after
    each call; and a call with a checkpoint of a lower epoch than the
    stored one fails with [InvalidCheckpoint] and returns the store as it
    was. *)
Theorem setFinalized_monotonic (cps : list Checkpoint) (cs : CheckpointStore) :
  StronglySorted Z.le
    (Epoch (finalized cs)
     :: map (fun s => Epoch (finalized s)) (setFinalized_calls cps cs))
  /\ (forall cp,
        Epoch cp < Epoch (finalized cs) ->
        setFinalized cp cs = (cs, Some InvalidCheckpoint))
  /\ (forall cp,
        Epoch (finalized cs) <= Epoch cp ->
        setFinalized cp cs
        = (mkCheckpointStore cp (justified cs) (previousJustified cs), None)).
Proof.
  repeat apply conj.
  - apply Sorted_StronglySorted; [|apply setFinalized_calls_sorted].
    intros x y z. apply Z.le_trans.
  - intros cp H. unfold setFinalized.
    apply Z.ltb_lt in H. rewrite H. reflexivity.
  - intros cp H. unfold setFinalized.
    apply Z.ltb_ge in H. rewrite H. reflexivity.
Qed.

(** C5. [hasBlock] is true exactly for the roots that have a node in the
    fork-choice graph or a block in the durable store; a graph node
    decides alone, the store is asked otherwise; and the answer is a
    boolean, false for a root known to neither. *)
Theorem hasBlock_graph_or_store (s : Service) (root : Bytes32) :
  (hasBlock s root = true <->
   is_Some (forkChoiceStore s !! root)
   \/ is_Some (blocks (beaconDB s) !! root))
  /\ (is_Some (forkChoiceStore s !! root) -> hasBlock s root = true)
  /\ (forkChoiceStore s !! root = None ->
      hasBlock s root = HasBlock (beaconDB s) root)
  /\ (forkChoiceStore s !! root = None ->
      blocks (beaconDB s) !! root = None ->
      hasBlock s root = false).
Proof.
  unfold hasBlock, HasNode, HasBlock. split; [|split; [|split]].
  - destruct (bool_decide_reflect (is_Some (forkChoiceStore s !! root)));
      [intuition|].
    destruct (bool_decide_reflect (is_Some (blocks (beaconDB s) !! root)));
      [intuition|].
    split; [discriminate|tauto].
  - intros H. rewrite (bool_decide_eq_true_2 _ H). reflexivity.
  - intros H. rewrite bool_decide_eq_false_2; [reflexivity|].
    rewrite H. apply is_Some_None.
  - intros Hg Hd. rewrite !bool_decide_eq_false_2; [reflexivity| |];
      [rewrite Hd|rewrite Hg]; apply is_Some_None.
Qed.

Lemma elem_of_garbageRoots s belowSlot root :
  root ∈ garbageRoots s belowSlot <->
  exists st, states (beaconDB s) !! root = Some st
             /\ state_Slot st < belowSlot
             /\ root ∉ protectedRoots s.
Proof.
  unfold garbageRoots. rewrite list_elem_of_omap. split.
  - intros [[r st] [Hin Hf]]. simpl in Hf.
    apply elem_of_map_to_list in Hin.
    destruct (Z.ltb_spec (state_Slot st) belowSlot); simpl in Hf;
      [|discriminate].
    destruct (bool_decide_reflect (r ∈ protectedRoots s)); simpl in Hf;
      [discriminate|].
    injection Hf as <-. eauto.
  - intros (st & Hst & Hlt & Hnp). exists (root, st). split.
    + now apply elem_of_map_to_list.
    + simpl. apply Z.ltb_lt in Hlt. rewrite Hlt.
      rewrite bool_decide_eq_false_2 by assumption. reflexivity.
Qed.

(** C4. [pruneGarbageState] deletes exactly the state snapshots whose slot
    is strictly below [belowSlot] and whose root is neither the head's nor
    that of the finalized, justified or previous-justified checkpoint:
    every other state, those at or above [belowSlot] and the protected
    ones among them, is still there unchanged, no state appears, and the
    blocks are left alone. *)
Theorem pruneGarbageState_exact (s : Service) (belowSlot : Z) (root : Bytes32) :
  let s' := fst (pruneGarbageState s belowSlot) in
  states (beaconDB s') !! root
  = match states (beaconDB s) !! root with
    | Some st =>
        if decide (state_Slot st < belowSlot /\ root ∉ protectedRoots s)
        then None else Some st
    | None => None
    end
  /\ blocks (beaconDB s') = blocks (beaconDB s)
  /\ snd (pruneGarbageState s belowSlot) = None.
Proof.
  simpl. repeat apply conj; try reflexivity.
  destruct (states (beaconDB s) !! root) as [st|] eqn:Est.
  - destruct (decide (state_Slot st < belowSlot /\ root ∉ protectedRoots s))
      as [[Hlt Hnp]|Hkeep].
    + apply lookup_foldr_delete. apply elem_of_garbageRoots. eauto.
    + rewrite lookup_foldr_delete_not_elem_of; [exact Est|].
      rewrite elem_of_garbageRoots. intros (st' & Hst' & Hlt & Hnp).
      apply Hkeep. split; congruence.
  - destruct (foldr delete (states (beaconDB s)) (garbageRoots s belowSlot)
                !! root) as [st|] eqn:E; [|reflexivity].
    apply lookup_foldr_delete_Some in E. destruct E as [_ E]. congruence.
Qed.

End Blockchain.

(** The pruning test's scenario: 100 states, one per slot, pruned below
    slot 50, with the head at slot 10 and checkpoints at slots 3 and 7. *)
Example pruneOldStates_below_50 :
  let s' := fst (blockchain.pruneGarbageState sample_chain.service 50) in
  let stateAt i :=
    blockchain.states (blockchain.beaconDB s') !! sample_chain.rootOf i in
  stateAt 0%nat = None
  /\ stateAt 49%nat = None
  /\ stateAt 50%nat = Some (blockchain.mkBeaconState 50)
  /\ stateAt 99%nat = Some (blockchain.mkBeaconState 99)
  /\ stateAt 10%nat = Some (blockchain.mkBeaconState 10)
  /\ stateAt 3%nat = Some (blockchain.mkBeaconState 3)
  /\ stateAt 7%nat = Some (blockchain.mkBeaconState 7).
Proof. vm_compute. repeat split. Qed.

Example hasBlock_graph_store_unknown :
  blockchain.hasBlock sample_chain.service (sample_chain.rootOf 200) = true
  /\ blockchain.hasBlock sample_chain.service (sample_chain.rootOf 42) = true
  /\ blockchain.hasBlock sample_chain.service (sample_chain.rootOf 201) = false.
Proof. vm_compute. repeat split. Qed.

Example setFinalized_lower_epoch_rejected :
  let cs := blockchain.checkpoints sample_chain.service in
  blockchain.setFinalized (ethpb.mkCheckpoint 1 (sample_chain.rootOf 1)) cs
  = (cs, Some blockchain.InvalidCheckpoint)
  /\ map (fun s => ethpb.Epoch (blockchain.finalized s))
       (blockchain.setFinalized_calls
          [ethpb.mkCheckpoint 4 (sample_chain.rootOf 12);
           ethpb.mkCheckpoint 1 (sample_chain.rootOf 1);
           ethpb.mkCheckpoint 4 (sample_chain.rootOf 13);
           ethpb.mkCheckpoint 9 (sample_chain.rootOf 30)] cs)
     = [4; 4; 4; 9].
Proof. vm_compute. repeat split. Qed.

(** ** Chain-head retrieval: errors and the nil body *)

Section ChainHeadErrors.
Import codes status ethpb beacon.
Variable HashTreeRoot : option BeaconBlock -> Bytes32 * option string.
Variable ToBytes32 : Bytes -> Bytes32.
Variable SlotToEpoch : Z -> Z.

Abbreviation retrieval :=
  (chainHeadRetrieval HashTreeRoot ToBytes32 SlotToEpoch).

Lemma checkpointBlock_unresolved d root :
  checkpointBlock (db.Block d root) = None <-> unresolved d root.
Proof.
  split.
  - intros H blk [b [Hb Hblk]]. rewrite Hb in H. simpl in H. congruence.
  - intros H. destruct (checkpointBlock (db.Block d root)) as [blk|] eqn:E;
      [|reflexivity].
    exfalso. apply (H blk).
    destruct (db.Block d root) as [[b|] [e|]] eqn:Ed; simpl in E;
      try discriminate.
    exists b. split; [exact Ed|exact E].
Qed.

Lemma checkpointBlock_resolves d root blk :
  checkpointBlock (db.Block d root) = Some blk <-> resolvesTo d root blk.
Proof.
  unfold resolvesTo. split.
  - destruct (db.Block d root) as [[b|] [e|]]; simpl; try discriminate.
    intros H. exists b. auto.
  - intros [b [-> Hb]]. exact Hb.
Qed.

(** X1. Every error of [chainHeadRetrieval] is a gRPC status with code
    [Internal]: never a plain error, never another code. *)
Theorem chainHeadRetrieval_errors_Internal (bs : Server) (e : error) :
  retrieval bs = Err e -> exists msg, e = Status Internal msg.
Proof.
  unfold chainHeadRetrieval.
  destruct (HeadBlock (headFetcher bs)) as [headBlock|];
    [|intros [= <-]; eauto].
  destruct (HashTreeRoot (Block headBlock)) as [hroot [err|]];
    [intros [= <-]; eauto|].
  destruct (checkpointBlock _) as [fb|]; [|intros [= <-]; eauto].
  destruct (checkpointBlock _) as [jb|]; [|intros [= <-]; eauto].
  destruct (checkpointBlock _) as [pb|]; [|intros [= <-]; eauto].
  destruct (Block headBlock); discriminate.
Qed.

(** X2. With the head block set and its root computed, the error names
    the first checkpoint, in the order finalized, justified, previous
    justified, whose root does not resolve, whatever the later ones do. *)
Theorem chainHeadRetrieval_first_failure
    (bs : Server) (headBlock : SignedBeaconBlock) (headBlockRoot : Bytes32) :
  HeadBlock (headFetcher bs) = Some headBlock ->
  HashTreeRoot (Block headBlock) = (headBlockRoot, None) ->
  let d := BeaconDB bs in
  let fin := ToBytes32 (Root (FinalizedCheckpt (finalizationFetcher bs))) in
  let jus :=
    ToBytes32 (Root (CurrentJustifiedCheckpt (finalizationFetcher bs))) in
  let prev :=
    ToBytes32 (Root (PreviousJustifiedCheckpt (finalizationFetcher bs))) in
  (unresolved d fin ->
   retrieval bs = Err (Status Internal "Could not get finalized block"))
  /\ (forall fb, resolvesTo d fin fb -> unresolved d jus ->
      retrieval bs = Err (Status Internal "Could not get justified block"))
  /\ (forall fb jb, resolvesTo d fin fb -> resolvesTo d jus jb ->
      unresolved d prev ->
      retrieval bs
      = Err (Status Internal "Could not get prev justified block")).
Proof.
  intros Hhead Hroot d fin jus prev.
  unfold chainHeadRetrieval. rewrite Hhead, Hroot. fold d fin jus prev.
  split; [|split].
  - intros Hf. apply checkpointBlock_unresolved in Hf. rewrite Hf. reflexivity.
  - intros fb Hf Hj. apply checkpointBlock_resolves in Hf.
    apply checkpointBlock_unresolved in Hj. rewrite Hf, Hj. reflexivity.
  - intros fb jb Hf Hj Hp. apply checkpointBlock_resolves in Hf, Hj.
    apply checkpointBlock_unresolved in Hp. rewrite Hf, Hj, Hp. reflexivity.
Qed.


End ChainHeadErrors.

Lemma chainHeadRetrieval_errors_Internal_sample :
  exists msg,
    status.Status codes.Internal "Head block of chain was nil"
    = status.Status codes.Internal msg.
Proof.
  apply (chainHeadRetrieval_errors_Internal sample.HashTreeRoot
           sample.ToBytes32 sample.SlotToEpoch sample.server_without_head).
  reflexivity.
Defined.

Lemma chainHeadRetrieval_first_failure_sample :
  beacon.chainHeadRetrieval sample.HashTreeRoot sample.ToBytes32
    sample.SlotToEpoch sample.server_without_finalized
  = Err (status.Status codes.Internal "Could not get finalized block").
Proof.
  apply (chainHeadRetrieval_first_failure sample.HashTreeRoot
           sample.ToBytes32 sample.SlotToEpoch sample.server_without_finalized
           (sample.blockAt 100 x0a) (sample.root x0a)).
  - reflexivity.
  - reflexivity.
  - intros blk [b [H _]]. vm_compute in H. discriminate H.
Defined.

(** The panic on a head block without a body. *)
Example chainHeadRetrieval_panics_on_empty_head :
  beacon.chainHeadRetrieval sample_more.lenientHashTreeRoot sample.ToBytes32
    sample.SlotToEpoch sample_more.server_with_empty_head
  = Panic.
Proof. vm_compute. reflexivity. Qed.

(** ** ListBlocks: pages, errors and panics *)

Section ListBlocksPages.
Import codes status ethpb beacon.
Variable HashTreeRoot : option BeaconBlock -> Bytes32 * option string.
Variable ToBytes32 : Bytes -> Bytes32.
Variable StartAndEndPage : string -> Z -> Z -> Z * Z * string * option string.
Variable MaxPageSize : Z.

Abbreviation listBlocks :=
  (ListBlocks HashTreeRoot ToBytes32 StartAndEndPage MaxPageSize).
Abbreviation rooted :=
  (fun b : SignedBeaconBlock => snd (HashTreeRoot (Block b)) = None).

Lemma string_app_assoc (a b c : string) : (a +:+ b) +:+ c = a +:+ b +:+ c.
Proof.
  induction a as [|ch a IH]; [reflexivity|].
  change (String.String ch ((a +:+ b) +:+ c)
          = String.String ch (a +:+ b +:+ c)).
  now rewrite IH.
Qed.








(** X5. The only status codes [ListBlocks] answers with are
    [InvalidArgument] and [Internal]. *)
Theorem ListBlocks_status_codes (bs : Server) (req : ListBlocksRequest)
    (c : codes.Code) (msg : string) :
  listBlocks bs req = Err (Status c msg) ->
  c = InvalidArgument \/ c = Internal.
Proof.
  unfold ListBlocks, pageOfBlocks.
  repeat case_match; intros [= <- <-]; auto.
Qed.


End ListBlocksPages.

Section ListBlocksEdges.
Import codes status ethpb beacon.
Variable HashTreeRoot : option BeaconBlock -> Bytes32 * option string.
Variable ToBytes32 : Bytes -> Bytes32.
Variable StartAndEndPage : string -> Z -> Z -> Z * Z * string * option string.
Variable MaxPageSize : Z.

Abbreviation listBlocks' :=
  (ListBlocks HashTreeRoot ToBytes32 StartAndEndPage MaxPageSize).



(** X8. A genesis request is answered the same whatever the value of its
    [Genesis] flag and whatever its page token: the flag set to false
    still asks for the genesis block. *)
Theorem ListBlocks_genesis_flag_ignored (bs : Server)
    (req req' : ListBlocksRequest) (g g' : bool) :
  QueryFilter req = ListBlocksRequest_Genesis g ->
  QueryFilter req' = ListBlocksRequest_Genesis g' ->
  PageSize req' = PageSize req ->
  listBlocks' bs req' = listBlocks' bs req.
Proof.
  intros Hq Hq' Hs. unfold ListBlocks. rewrite Hq, Hq', Hs. reflexivity.
Qed.

(** X9. With a page size within the limit, an error of the database
    lookup a request leads to always comes back as an [Internal] status
    whose message ends in the database's error text; no lookup error is
    swallowed or answered with an empty list. *)
Theorem ListBlocks_lookup_error (bs : Server) (req : ListBlocksRequest)
    (e : string) :
  PageSize req <= MaxPageSize ->
  lookupError ToBytes32 (BeaconDB bs) (QueryFilter req) = Some e ->
  exists context,
    listBlocks' bs req = Err (Status Internal (context +:+ e)).
Proof.
  intros Hsize. unfold ListBlocks, lookupError.
  rewrite (page_size_within _ _ Hsize).
  destruct (QueryFilter req) as [root|slot|epoch|g|]; cbn [rangeFilter].
  - destruct (db.Block _ _) as [[blk|] [e'|]]; cbn [snd]; try discriminate;
      intros [= ->]; exists "Could not retrieve block: "; reflexivity.
  - destruct (db.Blocks _ _) as [blks [e'|]]; cbn [snd]; [|discriminate].
    intros [= ->].
    exists ("Could not retrieve blocks for slot " +:+ pretty slot +:+ ": ").
    now rewrite !string_app_assoc.
  - destruct (db.Blocks _ _) as [blks [e'|]]; cbn [snd]; [|discriminate].
    intros [= ->]. exists "Failed to get blocks: ". reflexivity.
  - destruct (db.GenesisBlock _) as [[blk|] [e'|]]; cbn [snd];
      try discriminate; intros [= ->];
      exists "Could not retrieve blocks for genesis slot: "; reflexivity.
  - discriminate.
Qed.

End ListBlocksEdges.


Lemma ListBlocks_status_codes_sample :
  codes.InvalidArgument = codes.InvalidArgument
  \/ codes.InvalidArgument = codes.Internal.
Proof.
  eapply (ListBlocks_status_codes sample.HashTreeRoot sample.ToBytes32
            sample.StartAndEndPage sample.MaxPageSize sample.server
            (sample.request (ethpb.ListBlocksRequest_Epoch 7) 501)).
  vm_compute. reflexivity.
Defined.


(** The panic on pagination that overruns the list. *)
Example ListBlocks_panics_on_overrun :
  beacon.ListBlocks sample.HashTreeRoot sample.ToBytes32
    sample_more.overrunningStartAndEndPage sample.MaxPageSize
    sample_more.rangeServer
    (sample.request (ethpb.ListBlocksRequest_Epoch 7) 10)
  = Panic.
Proof. reflexivity. Qed.

Lemma ListBlocks_genesis_flag_sample :
  beacon.ListBlocks sample.HashTreeRoot sample.ToBytes32
    sample.StartAndEndPage sample.MaxPageSize sample.server
    (ethpb.mkListBlocksRequest (ethpb.ListBlocksRequest_Genesis false) 10
       "7")
  = beacon.ListBlocks sample.HashTreeRoot sample.ToBytes32
      sample.StartAndEndPage sample.MaxPageSize sample.server
      (sample.request (ethpb.ListBlocksRequest_Genesis true) 10).
Proof.
  apply (ListBlocks_genesis_flag_ignored sample.HashTreeRoot sample.ToBytes32
           sample.StartAndEndPage sample.MaxPageSize sample.server
           (sample.request (ethpb.ListBlocksRequest_Genesis true) 10)
           (ethpb.mkListBlocksRequest
              (ethpb.ListBlocksRequest_Genesis false) 10 "7")
           true false); reflexivity.
Defined.

Lemma ListBlocks_lookup_error_sample :
  exists context,
    beacon.ListBlocks sample.HashTreeRoot sample.ToBytes32
      sample.StartAndEndPage sample.MaxPageSize sample_more.brokenServer
      (sample.request (ethpb.ListBlocksRequest_Slot 7) 10)
    = Err (status.Status codes.Internal (context +:+ "disk")).
Proof.
  apply (ListBlocks_lookup_error sample.HashTreeRoot sample.ToBytes32
           sample.StartAndEndPage sample.MaxPageSize sample_more.brokenServer
           (sample.request (ethpb.ListBlocksRequest_Slot 7) 10) "disk").
  - vm_compute. discriminate.
  - reflexivity.
Defined.

(** ** Stream loops: whole runs *)

Section StreamRuns.
Import codes status ethpb beacon.
Variable HashTreeRoot : option BeaconBlock -> Bytes32 * option string.
Variable ToBytes32 : Bytes -> Bytes32.
Variable SlotToEpoch : Z -> Z.
Variable ReceivedBlock : Z.
Variable BlockProcessed : Z.

Abbreviation blocksRun := (StreamBlocks ReceivedBlock).
Abbreviation blocksStep := (StreamBlocks_iteration ReceivedBlock).
Abbreviation headRun :=
  (StreamChainHead HashTreeRoot ToBytes32 SlotToEpoch BlockProcessed).
Abbreviation headStep :=
  (StreamChainHead_iteration HashTreeRoot ToBytes32 SlotToEpoch BlockProcessed).
Abbreviation headOf := (chainHeadRetrieval HashTreeRoot ToBytes32 SlotToEpoch).
Abbreviation snapshot :=
  (snapshotFor HashTreeRoot ToBytes32 SlotToEpoch BlockProcessed).

(** X10. Over any run of block-feed events, none with data of the wrong
    type, a [StreamBlocks] loop on a transport that accepts every message
    hands over exactly the non-nil blocks of the [ReceivedBlock] events,
    each once and in the order received, and is still waiting at the end. *)
Theorem StreamBlocks_forwards_in_order
    (events : list feed.Event) (stream : ServerStream SignedBeaconBlock) :
  reliable stream ->
  Forall (wellTyped ReceivedBlock) events ->
  blocksRun stream (map case_event events)
  = (mkServerStream
       (sent stream ++ omap (forwardedBlock ReceivedBlock) events)
       (transport stream),
     Waiting).
Proof.
  revert stream. induction events as [|event events IH]; intros stream Hrel Hty.
  - simpl. rewrite app_nil_r. destruct stream; reflexivity.
  - apply Forall_cons in Hty. destruct Hty as [Hev Hty].
    cbn [map StreamBlocks StreamBlocks_iteration omap list_omap].
    unfold forwardedBlock at 1.
    destruct (Z.eqb_spec (feed.Typ event) ReceivedBlock) as [Et|Et].
    + destruct (Hev Et) as [data Hd]. rewrite Hd.
      destruct (blockfeed.SignedBlock data) as [blk|].
      * unfold Send. rewrite (Hrel (sent stream) blk).
        rewrite IH; [|exact Hrel|exact Hty]. simpl.
        now rewrite <- app_assoc.
      * now apply IH.
    + now apply IH.
Qed.

(** X11. Over any run of state-feed events whose chain-head retrievals
    all succeed, a [StreamChainHead] loop on a transport that accepts
    every message hands over exactly the snapshots retrieved for the
    [BlockProcessed] events, one for each and in the order received, and
    is still waiting at the end. *)
Theorem StreamChainHead_snapshots_in_order
    (events : list (Server * feed.Event)) (stream : ServerStream ChainHead) :
  reliable stream ->
  Forall (fun x => feed.Typ x.2 = BlockProcessed ->
                   exists res, headOf x.1 = Ok res) events ->
  headRun stream (map (fun x => (x.1, case_event x.2)) events)
  = (mkServerStream (sent stream ++ omap snapshot events) (transport stream),
     Waiting)
  /\ length (omap snapshot events)
     = length (filter (fun x => feed.Typ x.2 = BlockProcessed) events).
Proof.
  revert stream. induction events as [|[bs event] events IH];
    intros stream Hrel Hok.
  - simpl. rewrite app_nil_r. destruct stream; split; reflexivity.
  - apply Forall_cons in Hok. destruct Hok as [Hev Hok]. simpl in Hev.
    cbn [map StreamChainHead StreamChainHead_iteration omap list_omap fst snd].
    rewrite filter_cons. cbn [fst snd].
    destruct (Z.eqb_spec (feed.Typ event) BlockProcessed) as [Et|Et].
    + destruct (Hev Et) as [res Hres].
      assert (Hsnap : snapshot (bs, event) = Some res).
      { unfold snapshotFor. cbn [fst snd]. rewrite Hres, Et, Z.eqb_refl.
        reflexivity. }
      rewrite Hsnap, Hres. unfold Send. rewrite (Hrel (sent stream) res).
      destruct (IH (mkServerStream (sent stream ++ [res]) (transport stream))
                  Hrel Hok) as [Hrun Hlen].
      rewrite decide_True by exact Et. split.
      * rewrite Hrun. cbn [sent transport]. now rewrite <- app_assoc.
      * cbn [length]. f_equal. exact Hlen.
    + assert (Hsnap : snapshot (bs, event) = None).
      { unfold snapshotFor. cbn [fst snd].
        apply Z.eqb_neq in Et. now rewrite Et. }
      rewrite Hsnap, decide_False by exact Et. now apply IH.
Qed.

(** A stream handler that has returned or panicked is done: whatever
    its select could still have taken afterwards changes neither the
    outcome nor the messages handed over. *)
Theorem stream_exit_is_final :
  (forall stream pre post stream' ex,
     blocksRun stream pre = (stream', ex) -> ex <> Waiting ->
     blocksRun stream (pre ++ post) = (stream', ex))
  /\
  (forall stream pre post stream' ex,
     headRun stream pre = (stream', ex) -> ex <> Waiting ->
     headRun stream (pre ++ post) = (stream', ex)).
Proof.
  split.
  - intros stream pre post. revert stream.
    induction pre as [|c pre IH]; intros stream stream' ex; simpl.
    + intros [= <- <-] H. congruence.
    + destruct (blocksStep stream c); auto.
  - intros stream pre post. revert stream.
    induction pre as [|[bs c] pre IH]; intros stream stream' ex; simpl.
    + intros [= <- <-] H. congruence.
    + destruct (headStep stream bs c); auto.
Qed.

Lemma StreamBlocks_iteration_sent stream c :
  exists more,
    sent match blocksStep stream c with
         | Continue s | Return s _ | Crash s => s
         end = sent stream ++ more
    /\ (length more <= 1)%nat
    /\ transport match blocksStep stream c with
                 | Continue s | Return s _ | Crash s => s
                 end = transport stream.
Proof.
  destruct c as [event| | |]; simpl;
    try (exists []; rewrite app_nil_r; repeat split; simpl; lia).
  destruct (feed.Typ event =? ReceivedBlock);
    [|exists []; rewrite app_nil_r; repeat split; simpl; lia].
  destruct (feed.Data event) as [data|];
    [|exists []; rewrite app_nil_r; repeat split; simpl; lia].
  destruct (blockfeed.SignedBlock data) as [blk|];
    [|exists []; rewrite app_nil_r; repeat split; simpl; lia].
  exists [blk].
  destruct (transport stream (sent stream) blk); repeat split; simpl; lia.
Qed.

Lemma StreamChainHead_iteration_sent stream bs c :
  exists more,
    sent match headStep stream bs c with
         | Continue s | Return s _ | Crash s => s
         end = sent stream ++ more
    /\ (length more <= 1)%nat
    /\ transport match headStep stream bs c with
                 | Continue s | Return s _ | Crash s => s
                 end = transport stream.
Proof.
  destruct c as [event| | |]; simpl;
    try (exists []; rewrite app_nil_r; repeat split; simpl; lia).
  destruct (feed.Typ event =? BlockProcessed);
    [|exists []; rewrite app_nil_r; repeat split; simpl; lia].
  destruct (headOf bs) as [res|e|];
    try (exists []; rewrite app_nil_r; repeat split; simpl; lia).
  exists [res].
  destruct (transport stream (sent stream) res); repeat split; simpl; lia.
Qed.

(** X12. A stream handler only ever appends to what it has handed to the
    stream, at most one message for each case its select takes, and
    leaves the transport as it found it. *)
Theorem stream_sent_only_grows :
  (forall choices stream,
     exists more,
       sent (fst (blocksRun stream choices)) = sent stream ++ more
       /\ (length more <= length choices)%nat
       /\ transport (fst (blocksRun stream choices)) = transport stream)
  /\
  (forall choices stream,
     exists more,
       sent (fst (headRun stream choices)) = sent stream ++ more
       /\ (length more <= length choices)%nat
       /\ transport (fst (headRun stream choices)) = transport stream).
Proof.
  split.
  - induction choices as [|c rest IH]; intros stream; simpl.
    + exists []. rewrite app_nil_r. repeat split. simpl. lia.
    + destruct (StreamBlocks_iteration_sent stream c) as (m1 & Hs & Hl & Ht).
      destruct (blocksStep stream c) as [s1|s1 e|s1]; simpl.
      * destruct (IH s1) as (m2 & Hs2 & Hl2 & Ht2).
        exists (m1 ++ m2). rewrite Hs2, Hs, Ht2, Ht, app_assoc, length_app.
        repeat split. lia.
      * exists m1. repeat split; auto. lia.
      * exists m1. repeat split; auto. lia.
  - induction choices as [|[bs c] rest IH]; intros stream; simpl.
    + exists []. rewrite app_nil_r. repeat split. simpl. lia.
    + destruct (StreamChainHead_iteration_sent stream bs c)
        as (m1 & Hs & Hl & Ht).
      destruct (headStep stream bs c) as [s1|s1 e|s1]; simpl.
      * destruct (IH s1) as (m2 & Hs2 & Hl2 & Ht2).
        exists (m1 ++ m2). rewrite Hs2, Hs, Ht2, Ht, app_assoc, length_app.
        repeat split. lia.
      * exists m1. repeat split; auto. lia.
      * exists m1. repeat split; auto. lia.
Qed.

End StreamRuns.

(** ** Stream loops: how they end *)

Section StreamExits.
Import codes status ethpb beacon.
Variable HashTreeRoot : option BeaconBlock -> Bytes32 * option string.
Variable ToBytes32 : Bytes -> Bytes32.
Variable SlotToEpoch : Z -> Z.
Variable ReceivedBlock : Z.
Variable BlockProcessed : Z.

Abbreviation blocksRun' := (StreamBlocks ReceivedBlock).
Abbreviation blocksStep' := (StreamBlocks_iteration ReceivedBlock).
Abbreviation headRun' :=
  (StreamChainHead HashTreeRoot ToBytes32 SlotToEpoch BlockProcessed).
Abbreviation headStep' :=
  (StreamChainHead_iteration HashTreeRoot ToBytes32 SlotToEpoch BlockProcessed).
Abbreviation headOf' := (chainHeadRetrieval HashTreeRoot ToBytes32 SlotToEpoch).

Lemma chainHeadRetrieval_Err_inv bs e :
  headOf' bs = Err e -> exists msg, e = Status Internal msg.
Proof.
  unfold chainHeadRetrieval.
  destruct (HeadBlock (headFetcher bs)) as [headBlock|];
    [|intros [= <-]; eauto].
  destruct (HashTreeRoot (Block headBlock)) as [hroot [err|]];
    [intros [= <-]; eauto|].
  destruct (checkpointBlock _) as [fb|]; [|intros [= <-]; eauto].
  destruct (checkpointBlock _) as [jb|]; [|intros [= <-]; eauto].
  destruct (checkpointBlock _) as [pb|]; [|intros [= <-]; eauto].
  destruct (Block headBlock); discriminate.
Qed.



Lemma StreamChainHead_iteration_cause mid bs c stream' err :
  headStep' mid bs c = Return stream' err ->
  (Code err = Some Internal <->
   exists event msg,
     c = case_event event /\ feed.Typ event = BlockProcessed
     /\ headOf' bs = Err (Status Internal msg))
  /\ (Code err = Some Internal ->
      stream' = mid
      /\ exists msg,
           headOf' bs = Err (Status Internal msg)
           /\ err = Status Internal
                      ("Could not retrieve chain head: rpc error: code = Internal desc = "
                       +:+ msg))
  /\ (Code err = Some Unavailable <->
      exists event res e,
        c = case_event event /\ feed.Typ event = BlockProcessed
        /\ headOf' bs = Ok res
        /\ transport mid (sent mid) res = Some e)
  /\ (Code err = Some Unavailable ->
      exists res, headOf' bs = Ok res /\ sent stream' = sent mid ++ [res]).
Proof.
  destruct c as [event| | |]; simpl.
  - destruct (Z.eqb_spec (feed.Typ event) BlockProcessed) as [Et|Et];
      [|discriminate].
    destruct (headOf' bs) as [res|e|] eqn:Er; [| |discriminate].
    + destruct (transport mid (sent mid) res) as [e|] eqn:Es; [|discriminate].
      intros [= <- <-]. simpl. repeat split; try discriminate; eauto 10.
      intros (ev & msg & _ & _ & H). discriminate H.
    + destruct (chainHeadRetrieval_Err_inv _ _ Er) as [msg ->].
      intros [= <- <-]. simpl. repeat split; try discriminate; eauto 10.
      intros (ev & res & e & _ & _ & H & _). discriminate H.
  - intros [= <- <-]. simpl. repeat split; try discriminate.
    + intros (ev & msg & H & _). discriminate H.
    + intros (ev & res & e & H & _). discriminate H.
  - intros [= <- <-]. simpl. repeat split; try discriminate.
    + intros (ev & msg & H & _). discriminate H.
    + intros (ev & res & e & H & _). discriminate H.
  - intros [= <- <-]. simpl. repeat split; try discriminate.
    + intros (ev & msg & H & _). discriminate H.
    + intros (ev & res & e & H & _). discriminate H.
Qed.

(** X14. When [StreamChainHead] returns, it does so in one iteration after
    waiting through the earlier ones, and the status tells why: [Internal]
    exactly for a [BlockProcessed] event whose chain-head retrieval
    failed, with nothing handed over and a message that carries the
    retrieval's own [Internal] status text; [Unavailable] exactly for a
    retrieved snapshot the transport refused, that snapshot being the last
    message handed over. *)
Theorem StreamChainHead_failure_cause
    (stream : ServerStream ChainHead) (choices : list (Server * selected))
    (stream' : ServerStream ChainHead) (err : error) :
  headRun' stream choices = (stream', Returned err) ->
  exists pre bs c post mid,
    choices = pre ++ (bs, c) :: post
    /\ headRun' stream pre = (mid, Waiting)
    /\ (Code err = Some Internal <->
        exists event msg,
          c = case_event event /\ feed.Typ event = BlockProcessed
          /\ headOf' bs = Err (Status Internal msg))
    /\ (Code err = Some Internal ->
        stream' = mid
        /\ exists msg,
             headOf' bs = Err (Status Internal msg)
             /\ err = Status Internal
                        ("Could not retrieve chain head: rpc error: code = Internal desc = "
                         +:+ msg))
    /\ (Code err = Some Unavailable <->
        exists event res e,
          c = case_event event /\ feed.Typ event = BlockProcessed
          /\ headOf' bs = Ok res
          /\ transport mid (sent mid) res = Some e)
    /\ (Code err = Some Unavailable ->
        exists res, headOf' bs = Ok res /\ sent stream' = sent mid ++ [res]).
Proof.
  intros H.
  destruct (StreamChainHead_returned _ _ _ _ _ _ _ _ H)
    as (pre & bs & c & post & mid & Hc & Hpre & Hit).
  exists pre, bs, c, post, mid.
  split; [exact Hc|]. split; [exact Hpre|].
  exact (StreamChainHead_iteration_cause _ _ _ _ _ Hit).
Qed.


End StreamExits.

Lemma StreamBlocks_forwards_in_order_sample :
  beacon.StreamBlocks sample.ReceivedBlock sample.stream
    (map case_event
       [sample.receivedBlock (Some (sample.blockAt 5 x05));
        sample.receivedBlock None;
        sample_more.otherEvent;
        sample.receivedBlock (Some (sample.blockAt 6 x06))])
  = (mkServerStream [sample.blockAt 5 x05; sample.blockAt 6 x06]
       (fun _ _ => None),
     Waiting).
Proof.
  apply (StreamBlocks_forwards_in_order sample.ReceivedBlock
           [sample.receivedBlock (Some (sample.blockAt 5 x05));
            sample.receivedBlock None;
            sample_more.otherEvent;
            sample.receivedBlock (Some (sample.blockAt 6 x06))]
           sample.stream).
  - intros history m. reflexivity.
  - repeat constructor; intros H; try discriminate H; eexists; reflexivity.
Defined.

Lemma StreamChainHead_snapshots_in_order_sample :
  length
    (omap (snapshotFor sample.HashTreeRoot sample.ToBytes32
             sample.SlotToEpoch sample.BlockProcessed)
       [(sample.server, sample.blockProcessed);
        (sample.server_without_head, sample_more.otherEvent);
        (sample.server, sample.blockProcessed)])
  = length
      (filter (fun x : beacon.Server * feed.Event =>
                 feed.Typ x.2 = sample.BlockProcessed)
         [(sample.server, sample.blockProcessed);
          (sample.server_without_head, sample_more.otherEvent);
          (sample.server, sample.blockProcessed)]).
Proof.
  apply (StreamChainHead_snapshots_in_order sample.HashTreeRoot
           sample.ToBytes32 sample.SlotToEpoch sample.BlockProcessed
           [(sample.server, sample.blockProcessed);
            (sample.server_without_head, sample_more.otherEvent);
            (sample.server, sample.blockProcessed)]
           sample.stream).
  - intros history m. reflexivity.
  - repeat constructor; intros H; try discriminate H;
      eexists; vm_compute; reflexivity.
Defined.


Lemma StreamChainHead_failure_cause_sample :
  exists pre bs c post mid,
    [(sample.server, case_event sample.blockProcessed);
     (sample.server_without_head, case_event sample.blockProcessed)]
    = pre ++ (bs, c) :: post
    /\ beacon.StreamChainHead sample.HashTreeRoot sample.ToBytes32
         sample.SlotToEpoch sample.BlockProcessed sample.stream pre
       = (mid, Waiting)
    /\ (exists event msg,
          c = case_event event /\ feed.Typ event = sample.BlockProcessed
          /\ beacon.chainHeadRetrieval sample.HashTreeRoot sample.ToBytes32
               sample.SlotToEpoch bs
             = Err (status.Status codes.Internal msg)).
Proof.
  destruct (StreamChainHead_failure_cause sample.HashTreeRoot
              sample.ToBytes32 sample.SlotToEpoch sample.BlockProcessed
              sample.stream
              [(sample.server, case_event sample.blockProcessed);
               (sample.server_without_head, case_event sample.blockProcessed)]
              (mkServerStream
                 [ethpb.mkChainHead 100 3 (sample.root x0a)
                    64 2 (sample.root x01) 96 3 (sample.root x02)
                    64 2 (sample.root x01)]
                 (fun _ _ => None))
              (status.Status codes.Internal
                 "Could not retrieve chain head: rpc error: code = Internal desc = Head block of chain was nil")
              eq_refl)
    as (pre & bs & c & post & mid & Hc & Hpre & Hint & _).
  exists pre, bs, c, post, mid. split; [exact Hc|]. split; [exact Hpre|].
  apply Hint. reflexivity.
Defined.

(** A refused block ends [StreamBlocks] with [Unavailable], the block
    having been handed over. *)
Example StreamBlocks_unavailable_on_refusal :
  beacon.StreamBlocks sample.ReceivedBlock sample_more.brokenStream
    [case_event (sample.receivedBlock (Some (sample.blockAt 5 x05)));
     case_event (sample.receivedBlock (Some (sample.blockAt 6 x06)))]
  = (mkServerStream [sample.blockAt 5 x05] (fun _ _ => Some "closed"),
     Returned (status.Status codes.Unavailable
                 "Could not send over stream: closed")).
Proof. reflexivity. Qed.

(** ** The test doubles *)

Section TestDoubles.
Import event.



Lemma mockNotifier_calls_seq ms h :
  (detection_test.calls ms h).1 = seq (allocated h) (length ms)
  /\ allocated (detection_test.calls ms h).2
     = (allocated h + length ms)%nat.
Proof.
  revert h. induction ms as [|m ms IH]; intros h; simpl.
  - split; [reflexivity|lia].
  - assert (Hcall : detection_test.call m h
                    = (allocated h, mkHeap (S (allocated h))))
      by (destruct m; reflexivity).
    rewrite Hcall.
    destruct (IH (mkHeap (S (allocated h)))) as [Hs Ha].
    destruct (detection_test.calls ms (mkHeap (S (allocated h))))
      as [feeds h2].
    simpl in *. subst feeds. split; [reflexivity|lia].
Qed.

(** X17. The feeds a [mockNotifier] returns, over any sequence of
    [BlockFeed] and [AttestationFeed] calls, are all different from each
    other and from every feed allocated before: each call creates a new
    feed, so no two calls ever hand out the same one. *)
Theorem mockNotifier_feeds_all_fresh
    (ms : list detection_test.method) (h : heap) :
  NoDup (detection_test.calls ms h).1
  /\ Forall (fun feed => (allocated h <= feed)%nat)
       (detection_test.calls ms h).1
  /\ length (detection_test.calls ms h).1 = length ms
  /\ allocated (detection_test.calls ms h).2 = (allocated h + length ms)%nat.
Proof.
  destruct (mockNotifier_calls_seq ms h) as [Hs Ha]. rewrite Hs, Ha.
  repeat split.
  - apply NoDup_seq.
  - apply Forall_forall. intros feed Hin. apply elem_of_seq in Hin. lia.
  - apply length_seq.
Qed.

End TestDoubles.
